(** * Admin dashboard script (static/js/admin.js): a shallow embedding

    The script is jQuery glue: every handler reads a few values from the
    DOM, possibly issues [$.ajax], and patches a few DOM nodes from the
    callback.  Each handler is embedded as a pure function over a record
    holding exactly the DOM nodes it reads or writes; an asynchronous
    request is split into the synchronous part of the handler (which
    returns the values captured by the callbacks' closure) and the
    callback run on completion.  The wall clock ([Date.now()],
    [new Date()]) and the answers of [confirm] are inputs. *)

From Stdlib Require Import ZArith String Ascii List Lia Bool.
From stdpp Require Import base numbers list strings pretty gmap.

Local Open Scope string_scope.
Local Open Scope list_scope.
Local Open Scope Z_scope.

(** ** JavaScript values that reach the handlers *)

Inductive jsval :=
  | VUndefined
  | VString (s : string)
  | VBool (b : bool).

(** [ToString], as applied by a template literal [`${v}`]. *)
Definition ToString (v : jsval) : string :=
  match v with
  | VUndefined => "undefined"
  | VString s => s
  | VBool true => "true"
  | VBool false => "false"
  end.

(** Integers are rendered in decimal, as [String(n)] does for every
    integral Number below 1e21; time values stay below 8.64e15. *)
Definition num_to_string (n : Z) : string := pretty n.

(** The two ways [$.ajax] completes: the [success] callback receives the
    parsed response, the [error] callback receives [errorThrown]. *)
Inductive ajax_result (R : Type) :=
  | Success (response : R)
  | Error (error : string).
Arguments Success {R} response.
Arguments Error {R} error.

(** The object bound to [this] inside a callback.  A handler installed
    with [.on] runs with [this] bound to the element that triggered the
    event.  The callbacks of [$.ajax] run with [this] bound to the
    [context] option when the call supplies one, and to the settings
    object of the call otherwise ([callbackContext = s.context || s]). *)
Inductive jq_target :=
  | Element
  | AjaxSettings.

Definition callbackContext (context : option jq_target) : jq_target :=
  match context with
  | Some c => c
  | None => AjaxSettings
  end.

(** Own properties of a plain JavaScript object. *)
Abbreviation js_object := (gmap string jsval).

(** ** Class lists, as [removeClass] and [addClass] treat them *)

Definition removeClass (names : list string) (cls : list string) : list string :=
  filter (fun c => c ∉ names) cls.

Definition addClass (name : string) (cls : list string) : list string :=
  if decide (name ∈ cls) then cls else cls ++ [name].

(** ** Toast notifications (showToast) *)

Module Toast.

Record toast := {
  toast_id : string;
  toast_title : string;
  toast_message : string;
  toast_type : string;
  toast_shown : bool
}.

(** [#toastContainer]: absent until the first toast, then the list of its
    children in document order. *)
Record toast_dom := {
  container_exists : bool;
  container : list toast
}.

Definition no_toasts : toast_dom :=
  {| container_exists := false; container := [] |}.

Definition toastId (now : Z) : string := "toast-" +:+ num_to_string now.

(** [new bootstrap.Toast(document.getElementById(id)).show()]:
    [getElementById] returns the first element carrying the id. *)
Fixpoint show_first (id : string) (ts : list toast) : list toast :=
  match ts with
  | [] => []
  | t :: rest =>
      if String.eqb (toast_id t) id
      then {| toast_id := toast_id t; toast_title := toast_title t;
              toast_message := toast_message t; toast_type := toast_type t;
              toast_shown := true |} :: rest
      else t :: show_first id rest
  end.

(** [showToast(title, message, type)] with [Date.now() = now].  Title and
    message are kept as the texts the call passes: this is what the
    markup built at lines 218-228 displays when they carry no markup of
    their own (no [<], no [&]); a text that carries tags is parsed with
    the rest and falls outside this definition. *)
Definition showToast (title : string) (message : jsval) (type : string)
    (now : Z) (dom : toast_dom) : toast_dom :=
  let toastId := toastId now in
  let toastHtml :=
    {| toast_id := toastId; toast_title := title;
       toast_message := ToString message; toast_type := type;
       toast_shown := false |} in
  {| container_exists := true;
     container := show_first toastId (container dom ++ [toastHtml]) |}.

(** The handler of [hidden.bs.toast] removes the toast that was hidden. *)
Fixpoint remove_first (id : string) (ts : list toast) : list toast :=
  match ts with
  | [] => []
  | t :: rest =>
      if String.eqb (toast_id t) id then rest else t :: remove_first id rest
  end.

Definition hidden (id : string) (dom : toast_dom) : toast_dom :=
  {| container_exists := container_exists dom;
     container := remove_first id (container dom) |}.

(** What a toast displays: title, message and severity. *)
Definition toast_content (t : toast) : string * string * string :=
  (toast_title t, toast_message t, toast_type t).

Definition toast_log (dom : toast_dom) : list (string * string * string) :=
  map toast_content (container dom).

(** One [showToast] call of a page session, with the clock it reads. *)
Record call := {
  call_now : Z;
  call_title : string;
  call_message : jsval;
  call_type : string
}.

Definition run_call (dom : toast_dom) (c : call) : toast_dom :=
  showToast (call_title c) (call_message c) (call_type c) (call_now c) dom.

Definition run_session (calls : list call) (dom : toast_dom) : toast_dom :=
  fold_left run_call calls dom.


End Toast.

Import Toast.

(** [String.prototype.toUpperCase] on ASCII text: the letters [a] to [z]
    go to [A] to [Z] and every other character stays.  On a text with
    other letters JavaScript maps those too; such texts fall outside
    this definition. *)
Definition upper_ascii (c : ascii) : ascii :=
  let n := nat_of_ascii c in
  if (Nat.leb 97 n && Nat.leb n 122)%bool then ascii_of_nat (n - 32) else c.

Fixpoint toUpperCase (s : string) : string :=
  match s with
  | EmptyString => EmptyString
  | String c rest => String (upper_ascii c) (toUpperCase rest)
  end.

(** ** Update order status (the [.update-status] change handler) *)

Module UpdateStatus.

(** The [.status-text] element: either plain text, or the spinner
    followed by the text "Updating...". *)
Record label := {
  label_spinner : bool;
  label_text : string
}.

Record page := {
  order_id : jsval;                (* $(select).data('order-id') *)
  select_options : list string;    (* values of the select's options *)
  select_value : string;           (* $(select).val() *)
  original_status : jsval;         (* $(select).data('original-status') *)
  status_text : label;             (* $(select).parent().find('.status-text') *)
  badge_classes : list string;     (* #status-badge-<orderId> *)
  badge_text : string;
  settings : js_object;            (* own properties written on the settings
                                      object of the pending $.ajax call *)
  toasts : toast_dom
}.

Record response := {
  success : bool;
  new_status : string;
  message : jsval
}.

(** The settings passed to [$.ajax] together with the constants captured
    by the closures of its callbacks.  No [context] is passed. *)
Record request := {
  url : string;
  type : string;
  data_status : string;
  context : option jq_target;
  originalStatus : string
}.

Definition set_select_value (v : string) (p : page) : page :=
  {| order_id := order_id p; select_options := select_options p;
     select_value := v; original_status := original_status p;
     status_text := status_text p; badge_classes := badge_classes p;
     badge_text := badge_text p; settings := settings p; toasts := toasts p |}.

Definition set_status_text (l : label) (p : page) : page :=
  {| order_id := order_id p; select_options := select_options p;
     select_value := select_value p; original_status := original_status p;
     status_text := l; badge_classes := badge_classes p;
     badge_text := badge_text p; settings := settings p; toasts := toasts p |}.

Definition set_badge (cls : list string) (txt : string) (p : page) : page :=
  {| order_id := order_id p; select_options := select_options p;
     select_value := select_value p; original_status := original_status p;
     status_text := status_text p; badge_classes := cls;
     badge_text := txt; settings := settings p; toasts := toasts p |}.

Definition set_settings (s : js_object) (p : page) : page :=
  {| order_id := order_id p; select_options := select_options p;
     select_value := select_value p; original_status := original_status p;
     status_text := status_text p; badge_classes := badge_classes p;
     badge_text := badge_text p; settings := s; toasts := toasts p |}.

Definition set_toasts (t : toast_dom) (p : page) : page :=
  {| order_id := order_id p; select_options := select_options p;
     select_value := select_value p; original_status := original_status p;
     status_text := status_text p; badge_classes := badge_classes p;
     badge_text := badge_text p; settings := settings p; toasts := t |}.

(** [$(this).data('original-status')]: an element answers from its
    [data-original-status] attribute; on the settings object nothing was
    ever stored, so the answer is [undefined]. *)
Definition jq_data_original_status (this : jq_target) (p : page) : jsval :=
  match this with
  | Element => original_status p
  | AjaxSettings => VUndefined
  end.

(** Assigning a value to a select: the option with that value becomes
    selected; when there is none ([undefined] included) no option is
    selected and the value reads as the empty string. *)
Definition select_assign (options : list string) (v : jsval) : string :=
  match v with
  | VString s => if decide (s ∈ options) then s else ""
  | _ => ""
  end.

(** [$(this).val(v)]: [val] skips every wrapped object that is not an
    element node. *)
Definition jq_val (this : jq_target) (v : jsval) (p : page) : page :=
  match this with
  | Element => set_select_value (select_assign (select_options p) v) p
  | AjaxSettings => p
  end.

(** [originalText.text(s)] and
    [originalText.html('<span class=spinner-border ...></span> Updating...')]. *)
Definition text (s : string) : label :=
  {| label_spinner := false; label_text := s |}.

Definition updating : label :=
  {| label_spinner := true; label_text := " Updating..." |}.

(** Lines 62-67: the colour of the badge. *)
Definition badgeClass (new_status : string) : string :=
  if String.eqb new_status "pending" then "bg-primary"
  else if String.eqb new_status "processing" then "bg-warning"
  else if String.eqb new_status "confirmed" then "bg-info"
  else if String.eqb new_status "delivered" then "bg-success"
  else if String.eqb new_status "cancelled" then "bg-danger"
  else "bg-secondary".

(** The user picks another option; the [change] event then fires. *)
Definition user_select (v : string) (p : page) : page :=
  set_select_value v p.

(** Lines 38-52: the synchronous part of the handler, up to [$.ajax]. *)
Definition on_change (p : page) : page * request :=
  let orderId := order_id p in
  let newStatus := select_value p in
  let url := "/dashboard/orders/" +:+ ToString orderId +:+ "/update-status" in
  let originalStatus := label_text (status_text p) in
  let p := set_status_text updating p in
  (set_settings ∅ p,
   {| url := url; type := "POST"; data_status := newStatus;
      context := None; originalStatus := originalStatus |}).

(** Lines 53-78: the [success] callback. *)
Definition on_success (this : jq_target) (rq : request) (response : response)
    (now : Z) (p : page) : page :=
  if success response then
    let p := set_status_text (text (toUpperCase (new_status response))) p in
    let cls :=
      removeClass ["bg-primary"; "bg-warning"; "bg-info"; "bg-success"; "bg-danger"]
        (badge_classes p) in
    let p :=
      set_badge (addClass (badgeClass (new_status response)) cls)
        (toUpperCase (new_status response)) p in
    set_toasts
      (showToast "Success" (VString "Order status updated successfully")
         "success" now (toasts p)) p
  else
    let p := set_toasts (showToast "Error" (message response) "danger" now (toasts p)) p in
    jq_val this (jq_data_original_status this p) p.

(** Lines 79-84: the [error] callback. *)
Definition on_error (this : jq_target) (rq : request) (error : string)
    (now : Z) (p : page) : page :=
  let p :=
    set_toasts
      (showToast "Error" (VString ("Failed to update status: " +:+ error))
         "danger" now (toasts p)) p in
  let p := jq_val this (jq_data_original_status this p) p in
  set_status_text (text (originalStatus rq)) p.

Definition complete (rq : request) (result : ajax_result response)
    (now : Z) (p : page) : page :=
  let this := callbackContext (context rq) in
  match result with
  | Success response => on_success this rq response now p
  | Error error => on_error this rq error now p
  end.

(** One whole interaction: the user changes the select to [v], the
    handler runs, and the request completes with [result] at time [now]. *)
Definition interaction (v : string) (result : ajax_result response)
    (now : Z) (p : page) : page :=
  let '(p', rq) := on_change (user_select v p) in
  complete rq result now p'.

(** The colour table as the specification words it: five enumerated
    statuses, each with its colour, and a default for everything else. *)
Definition status_colors : list (string * string) :=
  [("pending", "bg-primary"); ("processing", "bg-warning");
   ("confirmed", "bg-info"); ("delivered", "bg-success");
   ("cancelled", "bg-danger")].

Definition default_color : string := "bg-secondary".

Fixpoint assoc (k : string) (l : list (string * string)) : option string :=
  match l with
  | [] => None
  | (k', v) :: rest => if String.eqb k k' then Some v else assoc k rest
  end.

Definition spec_badge_color (status : string) : string :=
  match assoc status status_colors with
  | Some c => c
  | None => default_color
  end.

End UpdateStatus.

(** ** Toggle user active status (the [.toggle-active] change handler) *)

Module ToggleActive.

Record page := {
  user_id : jsval;                 (* $(checkbox).data('user-id') *)
  checked : bool;                  (* $(checkbox).is(':checked') *)
  badge_classes : list string;     (* #user-status-<userId> *)
  badge_text : string;
  settings : js_object;
  toasts : toast_dom
}.

Record response := {
  success : bool;
  message : jsval
}.

Record request := {
  url : string;
  type : string;
  context : option jq_target;
  isActive : bool
}.

Definition set_checked (b : bool) (p : page) : page :=
  {| user_id := user_id p; checked := b; badge_classes := badge_classes p;
     badge_text := badge_text p; settings := settings p; toasts := toasts p |}.

Definition set_badge (cls : list string) (txt : string) (p : page) : page :=
  {| user_id := user_id p; checked := checked p; badge_classes := cls;
     badge_text := txt; settings := settings p; toasts := toasts p |}.

Definition set_settings (s : js_object) (p : page) : page :=
  {| user_id := user_id p; checked := checked p; badge_classes := badge_classes p;
     badge_text := badge_text p; settings := s; toasts := toasts p |}.

Definition set_toasts (t : toast_dom) (p : page) : page :=
  {| user_id := user_id p; checked := checked p; badge_classes := badge_classes p;
     badge_text := badge_text p; settings := settings p; toasts := t |}.

(** [$(this).prop('checked', b)]: [prop] assigns [this.checked = b] on
    whatever object is wrapped. *)
Definition jq_prop_checked (this : jq_target) (b : bool) (p : page) : page :=
  match this with
  | Element => set_checked b p
  | AjaxSettings => set_settings (<["checked" := VBool b]> (settings p)) p
  end.

(** The user clicks the checkbox; the [change] event then fires. *)
Definition user_toggle (p : page) : page := set_checked (negb (checked p)) p.

(** Lines 90-96. *)
Definition on_change (p : page) : page * request :=
  let userId := user_id p in
  let isActive := checked p in
  let url := "/dashboard/users/" +:+ ToString userId +:+ "/toggle-active" in
  (set_settings ∅ p,
   {| url := url; type := "POST"; context := None; isActive := isActive |}).

(** Lines 97-112. *)
Definition on_success (this : jq_target) (rq : request) (response : response)
    (now : Z) (p : page) : page :=
  let isActive := isActive rq in
  if success response then
    let statusText := if isActive then "activated" else "deactivated" in
    let p :=
      set_toasts
        (showToast "Success" (VString ("User " +:+ statusText +:+ " successfully"))
           "success" now (toasts p)) p in
    let cls := removeClass ["bg-success"; "bg-danger"] (badge_classes p) in
    let cls := addClass (if isActive then "bg-success" else "bg-danger") cls in
    set_badge cls (if isActive then "Active" else "Inactive") p
  else
    let p := set_toasts (showToast "Error" (message response) "danger" now (toasts p)) p in
    jq_prop_checked this (negb isActive) p.

(** Lines 113-117. *)
Definition on_error (this : jq_target) (rq : request) (error : string)
    (now : Z) (p : page) : page :=
  let p :=
    set_toasts
      (showToast "Error" (VString ("Failed to update user status: " +:+ error))
         "danger" now (toasts p)) p in
  jq_prop_checked this (negb (isActive rq)) p.

Definition complete (rq : request) (result : ajax_result response)
    (now : Z) (p : page) : page :=
  let this := callbackContext (context rq) in
  match result with
  | Success response => on_success this rq response now p
  | Error error => on_error this rq error now p
  end.

Definition interaction (result : ajax_result response) (now : Z) (p : page) : page :=
  let '(p', rq) := on_change (user_toggle p) in
  complete rq result now p'.

End ToggleActive.

(** ** Toggle review approval (the [.toggle-approval] change handler) *)

Module ToggleApproval.

Record page := {
  review_id : jsval;               (* $(checkbox).data('review-id') *)
  checked : bool;                  (* $(checkbox).is(':checked') *)
  badge_classes : list string;     (* #review-status-<reviewId> *)
  badge_text : string;
  settings : js_object;
  toasts : toast_dom
}.

Record response := {
  success : bool;
  message : jsval
}.

Record request := {
  url : string;
  type : string;
  context : option jq_target;
  isApproved : bool
}.

Definition set_checked (b : bool) (p : page) : page :=
  {| review_id := review_id p; checked := b; badge_classes := badge_classes p;
     badge_text := badge_text p; settings := settings p; toasts := toasts p |}.

Definition set_badge (cls : list string) (txt : string) (p : page) : page :=
  {| review_id := review_id p; checked := checked p; badge_classes := cls;
     badge_text := txt; settings := settings p; toasts := toasts p |}.

Definition set_settings (s : js_object) (p : page) : page :=
  {| review_id := review_id p; checked := checked p;
     badge_classes := badge_classes p; badge_text := badge_text p;
     settings := s; toasts := toasts p |}.

Definition set_toasts (t : toast_dom) (p : page) : page :=
  {| review_id := review_id p; checked := checked p;
     badge_classes := badge_classes p; badge_text := badge_text p;
     settings := settings p; toasts := t |}.

Definition jq_prop_checked (this : jq_target) (b : bool) (p : page) : page :=
  match this with
  | Element => set_checked b p
  | AjaxSettings => set_settings (<["checked" := VBool b]> (settings p)) p
  end.

Definition user_toggle (p : page) : page := set_checked (negb (checked p)) p.

(** Lines 123-129. *)
Definition on_change (p : page) : page * request :=
  let reviewId := review_id p in
  let isApproved := checked p in
  let url := "/dashboard/reviews/" +:+ ToString reviewId +:+ "/toggle-approval" in
  (set_settings ∅ p,
   {| url := url; type := "POST"; context := None; isApproved := isApproved |}).

(** Lines 130-145. *)
Definition on_success (this : jq_target) (rq : request) (response : response)
    (now : Z) (p : page) : page :=
  let isApproved := isApproved rq in
  if success response then
    let statusText := if isApproved then "approved" else "unapproved" in
    let p :=
      set_toasts
        (showToast "Success" (VString ("Review " +:+ statusText +:+ " successfully"))
           "success" now (toasts p)) p in
    let cls := removeClass ["bg-success"; "bg-warning"] (badge_classes p) in
    let cls := addClass (if isApproved then "bg-success" else "bg-warning") cls in
    set_badge cls (if isApproved then "Approved" else "Pending") p
  else
    let p := set_toasts (showToast "Error" (message response) "danger" now (toasts p)) p in
    jq_prop_checked this (negb isApproved) p.

(** Lines 146-150. *)
Definition on_error (this : jq_target) (rq : request) (error : string)
    (now : Z) (p : page) : page :=
  let p :=
    set_toasts
      (showToast "Error" (VString ("Failed to update review: " +:+ error))
         "danger" now (toasts p)) p in
  jq_prop_checked this (negb (isApproved rq)) p.

Definition complete (rq : request) (result : ajax_result response)
    (now : Z) (p : page) : page :=
  let this := callbackContext (context rq) in
  match result with
  | Success response => on_success this rq response now p
  | Error error => on_error this rq error now p
  end.

Definition interaction (result : ajax_result response) (now : Z) (p : page) : page :=
  let '(p', rq) := on_change (user_toggle p) in
  complete rq result now p'.

End ToggleApproval.

(** ** Periodic statistics refresh (updateDashboardStats, updateStatsDisplay) *)

Module Stats.

Section Formatting.

(** JavaScript Numbers and the three renderings the display uses:
    [String(n)], [n.toLocaleString('en-IN')] and [n.toFixed(2)].  The
    statistics of a response are taken as the interface has them, four
    Numbers; a response that lacks one makes the callback throw part of
    the way and falls outside these definitions. *)
Variable number : Type.
Variable String_of : number -> string.
Variable toLocaleString_en_IN : number -> string.
Variable toFixed_2 : number -> string.

Record stats := {
  order_count : number;
  revenue : number;
  avg_order_value : number;
  new_customers : number
}.

Record response := {
  success : bool;
  response_stats : stats;
  message : jsval
}.

(** The four [data-stat] slots and the toast container. *)
Record page := {
  stat_orders : string;
  stat_revenue : string;
  stat_avg_order : string;
  stat_customers : string;
  toasts : toast_dom
}.

(** Lines 197-202. *)
Definition updateStatsDisplay (stats : stats) (p : page) : page :=
  {| stat_orders := String_of (order_count stats);
     stat_revenue := "₹" +:+ toLocaleString_en_IN (revenue stats);
     stat_avg_order := "₹" +:+ toFixed_2 (avg_order_value stats);
     stat_customers := String_of (new_customers stats);
     toasts := toasts p |}.

(** Lines 183-194: the request has a [success] callback only, so a
    failed request runs no code at all. *)
Definition updateDashboardStats (result : ajax_result response) (p : page) : page :=
  match result with
  | Success response =>
      if success response then updateStatsDisplay (response_stats response) p
      else p
  | Error _ => p
  end.

(** A tick that fails: the transport fails, or the server answers with
    [success] false. *)
Inductive failed_tick :=
  | TransportFailure (error : string)
  | Rejected (body_stats : stats) (body_message : jsval).

Definition result_of_failure (f : failed_tick) : ajax_result response :=
  match f with
  | TransportFailure error => Error error
  | Rejected s m => Success {| success := false; response_stats := s; message := m |}
  end.

(** [setInterval(updateDashboardStats, 60000)]: one result per tick. *)
Definition run_ticks (results : list (ajax_result response)) (p : page) : page :=
  fold_left (fun p r => updateDashboardStats r p) results p.

End Formatting.

Arguments order_count {number}.
Arguments revenue {number}.
Arguments avg_order_value {number}.
Arguments new_customers {number}.
Arguments success {number}.
Arguments response_stats {number}.
Arguments message {number}.
Arguments updateStatsDisplay {number}.
Arguments updateDashboardStats {number}.
Arguments TransportFailure {number}.
Arguments Rejected {number}.
Arguments result_of_failure {number}.
Arguments run_ticks {number}.

End Stats.

(** ** Dates: [Date.prototype.toISOString] on a time value

    A time value is a number of milliseconds since 1970-01-01T00:00:00Z.
    The definitions follow the abstract operations of ECMA-262
    (Day, DayFromYear, YearFromTime, MonthFromTime, DateFromTime, ...). *)

Module JSDate.

Definition msPerDay : Z := 86400000.
Definition msPerHour : Z := 3600000.
Definition msPerMinute : Z := 60000.
Definition msPerSecond : Z := 1000.

Definition Day (t : Z) : Z := t / msPerDay.

Definition DaysInYear (y : Z) : Z :=
  if negb (y mod 4 =? 0) then 365
  else if negb (y mod 100 =? 0) then 366
  else if negb (y mod 400 =? 0) then 365
  else 366.

Definition DayFromYear (y : Z) : Z :=
  365 * (y - 1970) + (y - 1969) / 4 - (y - 1901) / 100 + (y - 1601) / 400.

Definition TimeFromYear (y : Z) : Z := msPerDay * DayFromYear y.

(** YearFromTime is the largest [y] with [TimeFromYear y <= t]: start
    from a year that is not after it and walk forward. *)
Fixpoint year_search (fuel : nat) (day y : Z) : Z :=
  match fuel with
  | O => y
  | S fuel' =>
      if DayFromYear (y + 1) <=? day then year_search fuel' day (y + 1) else y
  end.

Definition year_start (day : Z) : Z :=
  1970 + (if day <? 0 then day / 365 else day / 366).

Definition year_fuel (day : Z) : nat := Z.to_nat (Z.abs day / 100000 + 2).

Definition YearFromDay (day : Z) : Z :=
  year_search (year_fuel day) day (year_start day).

Definition YearFromTime (t : Z) : Z := YearFromDay (Day t).

Definition InLeapYear (t : Z) : Z :=
  if DaysInYear (YearFromTime t) =? 366 then 1 else 0.

Definition DayWithinYear (t : Z) : Z := Day t - DayFromYear (YearFromTime t).

Definition MonthFromTime (t : Z) : Z :=
  let d := DayWithinYear t in
  let leap := InLeapYear t in
  if d <? 31 then 0
  else if d <? 59 + leap then 1
  else if d <? 90 + leap then 2
  else if d <? 120 + leap then 3
  else if d <? 151 + leap then 4
  else if d <? 181 + leap then 5
  else if d <? 212 + leap then 6
  else if d <? 243 + leap then 7
  else if d <? 273 + leap then 8
  else if d <? 304 + leap then 9
  else if d <? 334 + leap then 10
  else 11.

Definition DateFromTime (t : Z) : Z :=
  let d := DayWithinYear t in
  let leap := InLeapYear t in
  match MonthFromTime t with
  | 0 => d + 1
  | 1 => d - 30
  | 2 => d - 58 - leap
  | 3 => d - 89 - leap
  | 4 => d - 119 - leap
  | 5 => d - 150 - leap
  | 6 => d - 180 - leap
  | 7 => d - 211 - leap
  | 8 => d - 242 - leap
  | 9 => d - 272 - leap
  | 10 => d - 303 - leap
  | _ => d - 333 - leap
  end.

Definition HourFromTime (t : Z) : Z := (t / msPerHour) mod 24.
Definition MinFromTime (t : Z) : Z := (t / msPerMinute) mod 60.
Definition SecFromTime (t : Z) : Z := (t / msPerSecond) mod 60.
Definition msFromTime (t : Z) : Z := t mod msPerSecond.

Definition digit (n : Z) : ascii := ascii_of_nat (48 + Z.to_nat (n mod 10)).

(** The [k] low decimal digits of [n], zero padded. *)
Fixpoint pad (k : nat) (n : Z) : string :=
  match k with
  | O => ""
  | S k' => pad k' (n / 10) +:+ String (digit n) ""
  end.

(** Years 0 to 9999 take four digits; the others a sign and six. *)
Definition year_string (y : Z) : string :=
  if (0 <=? y) && (y <=? 9999) then pad 4 y
  else (if y <? 0 then "-" else "+") +:+ pad 6 (Z.abs y).

Definition date_string (t : Z) : string :=
  year_string (YearFromTime t) +:+ "-" +:+ pad 2 (MonthFromTime t + 1)
    +:+ "-" +:+ pad 2 (DateFromTime t).

Definition time_string (t : Z) : string :=
  pad 2 (HourFromTime t) +:+ ":" +:+ pad 2 (MinFromTime t) +:+ ":"
    +:+ pad 2 (SecFromTime t) +:+ "." +:+ pad 3 (msFromTime t).

Definition toISOString (t : Z) : string :=
  date_string t +:+ "T" +:+ time_string t +:+ "Z".

(** [s.slice(0, n)] for [n] within the string. *)
Definition slice_0 (n : nat) (s : string) : string := String.substring 0 n s.

End JSDate.

(** ** Export (the [.export-data] click handler) *)

Module ExportData.

Record page := {
  export_type : jsval;             (* $(link).data('type') *)
  export_url : jsval;              (* $(link).data('url') *)
  downloads : list string;         (* the [download] name of every link clicked *)
  toasts : toast_dom
}.

Record request := {
  url : jsval;
  type : string;
  data_format : string;
  exportType : jsval
}.

Definition set_toasts (t : toast_dom) (p : page) : page :=
  {| export_type := export_type p; export_url := export_url p;
     downloads := downloads p; toasts := t |}.

Definition add_download (name : string) (p : page) : page :=
  {| export_type := export_type p; export_url := export_url p;
     downloads := downloads p ++ [name]; toasts := toasts p |}.

(** Lines 243-256: the click, at clock [now]. *)
Definition on_click (now : Z) (p : page) : page * request :=
  let exportType := export_type p in
  let url := export_url p in
  let p := set_toasts (showToast "Info" (VString "Preparing export...") "info" now (toasts p)) p in
  (p, {| url := url; type := "GET"; data_format := "csv"; exportType := exportType |}).

(** Line 261: the name of the file, from the clock read by [new Date()]. *)
Definition download_name (exportType : jsval) (date : Z) : string :=
  "export_" +:+ ToString exportType +:+ "_"
    +:+ JSDate.slice_0 10 (JSDate.toISOString date) +:+ ".csv".

(** Lines 257-265: the [success] callback; [date] is the clock read by
    [new Date()] and [now] the one read by [showToast] after it. *)
Definition on_success (rq : request) (date now : Z) (p : page) : page :=
  let p := add_download (download_name (exportType rq) date) p in
  set_toasts
    (showToast "Success" (VString "Export completed successfully") "success"
       now (toasts p)) p.

(** Lines 266-268. *)
Definition on_error (rq : request) (error : string) (now : Z) (p : page) : page :=
  set_toasts
    (showToast "Error" (VString ("Export failed: " +:+ error)) "danger"
       now (toasts p)) p.

(** A click at [click_time] whose response is handled at [response_time]. *)
Definition click_then_success (click_time response_time : Z) (p : page) : page :=
  let '(p', rq) := on_click click_time p in
  on_success rq response_time response_time p'.

End ExportData.

(** ** Bulk actions (the [.bulk-action] click handler) *)

Module Bulk.

(** A [.bulk-select] checkbox: its value and whether it is checked. *)
Record checkbox := {
  value : string;
  is_checked : bool
}.

(** What the handler does to the world outside the DOM. *)
Inductive effect :=
  | Confirm (prompt : string)
  | ConsoleLog (text : string) (ids : list string)
  | Request (url : string).

Record page := {
  bulk_select : list checkbox;
  effects : list effect;
  toasts : toast_dom
}.

(** Lines 275-279: the values of [$('.bulk-select:checked')]. *)
Definition selectedIds (boxes : list checkbox) : list string :=
  map value (filter (fun b => is_checked b = true) boxes).

Definition confirm_prompt (action : jsval) (selectedIds : list string) : string :=
  "Are you sure you want to " +:+ ToString action +:+ " "
    +:+ num_to_string (Z.of_nat (length selectedIds)) +:+ " selected item(s)?".

Definition log_text (action : jsval) : string :=
  "Bulk " +:+ ToString action +:+ " for IDs:".

(** Lines 273-290; [action] is [$(this).data('action')] and [answer] is
    what the user answers if [confirm] is called. *)
Definition on_click (action : jsval) (answer : bool) (now : Z) (p : page) : page :=
  let selectedIds := selectedIds (bulk_select p) in
  if (length selectedIds =? 0)%nat then
    {| bulk_select := bulk_select p; effects := effects p;
       toasts :=
         showToast "Warning" (VString "Please select items to perform this action")
           "warning" now (toasts p) |}
  else
    let prompt := confirm_prompt action selectedIds in
    let effects := effects p ++ [Confirm prompt] in
    if answer then
      {| bulk_select := bulk_select p;
         effects := effects ++ [ConsoleLog (log_text action) selectedIds];
         toasts := toasts p |}
    else
      {| bulk_select := bulk_select p; effects := effects; toasts := toasts p |}.

End Bulk.

(** ** Theme switcher (the [.theme-switcher] click handler and the
    saved-theme check of the ready handler) *)

Module Theme.

Record browser := {
  data_bs_theme : option string;       (* $('html').attr('data-bs-theme') *)
  localStorage : gmap string string;
  toasts : toast_dom
}.

(** Lines 304-313. *)
Definition on_click (now : Z) (b : browser) : browser :=
  let currentTheme := data_bs_theme b in
  let newTheme :=
    match currentTheme with
    | Some t => if String.eqb t "dark" then "light" else "dark"
    | None => "dark"
    end in
  {| data_bs_theme := Some newTheme;
     localStorage := <["theme" := newTheme]> (localStorage b);
     toasts :=
       showToast "Theme Changed" (VString ("Switched to " +:+ newTheme +:+ " mode"))
         "info" now (toasts b) |}.

(** Truthiness of [localStorage.getItem(...)]: [null] and the empty
    string are falsy. *)
Definition truthy (item : option string) : bool :=
  match item with
  | Some s => negb (String.eqb s "")
  | None => false
  end.

(** Lines 316-319, run by the ready handler of a freshly loaded page. *)
Definition check_saved_theme (b : browser) : browser :=
  let savedTheme := localStorage b !! "theme" in
  match savedTheme with
  | Some t =>
      if truthy savedTheme then
        {| data_bs_theme := Some t; localStorage := localStorage b;
           toasts := toasts b |}
      else b
  | None => b
  end.

(** A (re)load: the document comes back as the server renders it, with
    [markup] as the root's theme attribute, the storage survives, and the
    ready handler runs. *)
Definition load (markup : option string) (storage : gmap string string) : browser :=
  check_saved_theme
    {| data_bs_theme := markup; localStorage := storage; toasts := no_toasts |}.

Definition reload (markup : option string) (b : browser) : browser :=
  load markup (localStorage b).

End Theme.

(** ** getTimeAgo

    [now] is the clock read by [new Date()]; [date] is the time value of
    [new Date(dateString)], [None] when the string does not parse
    (Invalid Date, whose time value is NaN: every comparison with NaN is
    false and NaN prints as "NaN"). *)

Definition getTimeAgo (now : Z) (date : option Z) : string :=
  match date with
  | None => "NaN" +:+ "y ago"
  | Some date =>
      let seconds := (now - date) / 1000 in
      if seconds <? 60 then "just now"
      else
        let minutes := seconds / 60 in
        if minutes <? 60 then num_to_string minutes +:+ "m ago"
        else
          let hours := minutes / 60 in
          if hours <? 24 then num_to_string hours +:+ "h ago"
          else
            let days := hours / 24 in
            if days <? 30 then num_to_string days +:+ "d ago"
            else
              let months := days / 30 in
              if months <? 12 then num_to_string months +:+ "mo ago"
              else
                let years := months / 12 in
                num_to_string years +:+ "y ago"
  end.

(** ** Notions used to state the properties *)

(** The container gained exactly one toast of severity [danger] showing
    [message]. *)
Definition error_notification (message : string) (before after : toast_dom) : Prop :=
  exists title, toast_log after = toast_log before ++ [(title, message, "danger")].

(** An order row showing a pending order, and the five statuses. *)
Definition order_statuses : list string :=
  ["pending"; "processing"; "confirmed"; "delivered"; "cancelled"].

Definition pending_order : UpdateStatus.page :=
  {| UpdateStatus.order_id := VString "17";
     UpdateStatus.select_options := order_statuses;
     UpdateStatus.select_value := "pending";
     UpdateStatus.original_status := VString "pending";
     UpdateStatus.status_text := UpdateStatus.text "PENDING";
     UpdateStatus.badge_classes := ["badge"; "bg-primary"];
     UpdateStatus.badge_text := "PENDING";
     UpdateStatus.settings := ∅;
     UpdateStatus.toasts := no_toasts |}.

Definition locked : UpdateStatus.response :=
  {| UpdateStatus.success := false;
     UpdateStatus.new_status := "";
     UpdateStatus.message := VString "locked" |}.

(** An inactive user and an unapproved review. *)
Definition inactive_user : ToggleActive.page :=
  {| ToggleActive.user_id := VString "5";
     ToggleActive.checked := false;
     ToggleActive.badge_classes := ["badge"; "bg-danger"];
     ToggleActive.badge_text := "Inactive";
     ToggleActive.settings := ∅;
     ToggleActive.toasts := no_toasts |}.

Definition pending_review : ToggleApproval.page :=
  {| ToggleApproval.review_id := VString "9";
     ToggleApproval.checked := false;
     ToggleApproval.badge_classes := ["badge"; "bg-warning"];
     ToggleApproval.badge_text := "Pending";
     ToggleApproval.settings := ∅;
     ToggleApproval.toasts := no_toasts |}.

(** A dashboard showing yesterday's figures, with integral statistics. *)
Definition stale_dashboard : Stats.page :=
  {| Stats.stat_orders := "12";
     Stats.stat_revenue := "₹45,000";
     Stats.stat_avg_order := "₹3750.50";
     Stats.stat_customers := "3";
     Stats.toasts := no_toasts |}.

Definition no_stats : Stats.stats Z :=
  {| Stats.order_count := 0; Stats.revenue := 0;
     Stats.avg_order_value := 0; Stats.new_customers := 0 |}.

(** Two toasts requested within the same millisecond, and two requested
    a millisecond apart. *)
Definition info_at (now : Z) : call :=
  {| call_now := now; call_title := "Info";
     call_message := VString "Preparing export..."; call_type := "info" |}.

Definition done_at (now : Z) : call :=
  {| call_now := now; call_title := "Success";
     call_message := VString "Export completed successfully";
     call_type := "success" |}.

(** An export link for orders on a page that has exported nothing. *)
Definition orders_export : ExportData.page :=
  {| ExportData.export_type := VString "orders";
     ExportData.export_url := VString "/dashboard/orders/export";
     ExportData.downloads := [];
     ExportData.toasts := no_toasts |}.

(** 2024-01-01T23:59:59.500Z and 2024-01-02T00:00:00.100Z. *)
Definition before_midnight : Z := 1704153599500.
Definition after_midnight : Z := 1704153600100.

(** A browser whose document has no theme attribute and no saved theme. *)
Definition fresh_browser : Theme.browser :=
  {| Theme.data_bs_theme := None; Theme.localStorage := ∅;
     Theme.toasts := no_toasts |}.

(** A browser whose document is rendered with the light theme. *)
Definition light_browser : Theme.browser :=
  {| Theme.data_bs_theme := Some "light"; Theme.localStorage := ∅;
     Theme.toasts := no_toasts |}.

(** The last five characters of a string: what tells the formats of
    [getTimeAgo] apart. *)
Definition last5 (s : string) : string :=
  String.substring (String.length s - 5) 5 s.

(** ** Plain text

    [showToast] splices its title and message unescaped into the markup
    of the toast, which is then parsed.  A text without [<] and [&] is
    spliced as the text it is; whatever is said below of what a toast
    displays, or of how many toasts a call adds, is said for such
    texts. *)
Definition markup_char (c : ascii) : bool :=
  (Ascii.eqb c "<"%char || Ascii.eqb c "&"%char)%bool.

Fixpoint plain_text (s : string) : bool :=
  match s with
  | EmptyString => true
  | String c rest => (negb (markup_char c) && plain_text rest)%bool
  end.

(** The text a completed request splices into its toast is plain: the
    [message] of a rejection, the error text of a transport failure (the
    text of an acknowledgement is a constant of the script). *)
Definition spliced_plain {R : Type} (success : R -> bool) (message : R -> jsval)
    (result : ajax_result R) : bool :=
  match result with
  | Success response =>
      (success response || plain_text (ToString (message response)))%bool
  | Error error => plain_text error
  end.

(** Texts of ASCII characters only, on which [toUpperCase] above is
    [String.prototype.toUpperCase]. *)
Fixpoint ascii_only (s : string) : bool :=
  match s with
  | EmptyString => true
  | String c rest => (Nat.ltb (nat_of_ascii c) 128 && ascii_only rest)%bool
  end.

(** A container holding one toast, and a page of unchecked orders on
    which that toast is still displayed. *)
Definition one_toast : toast_dom := run_call no_toasts (info_at 1700000000000).


(** ** Confirm delete (the [.confirm-delete] click handler) *)

Module ConfirmDelete.

Section Data.

(** [JSON.parse] followed by [ToString]: the printed form of the value a
    text parses to, [None] when [JSON.parse] throws. *)
Variable JSON_parse : string -> option string.

Record page := {
  href : jsval;                    (* $(link).attr('href') *)
  data_name : option string;       (* the text of the link's data-name attribute *)
  location : string;               (* window.location.href *)
  prompts : list string            (* every text passed to [confirm] *)
}.

(** What [||] and a template literal see of a value. *)
Record value := {
  truthy : bool;
  printed : string
}.

Definition starts_with (c : ascii) (t : string) : bool :=
  match t with
  | String c' _ => Ascii.eqb c c'
  | EmptyString => false
  end.

Fixpoint ends_with (c : ascii) (t : string) : bool :=
  match t with
  | EmptyString => false
  | String c' EmptyString => Ascii.eqb c c'
  | String _ rest => ends_with c rest
  end.

(** The texts that [.data()] hands to [JSON.parse]: anything in braces
    or in brackets. *)
Definition json_text (t : string) : bool :=
  ((Nat.leb 2 (String.length t))
   && ((starts_with "{" t && ends_with "}" t)
       || (starts_with "[" t && ends_with "]" t)))%bool.

(** [$(link).data('name')].  An absent attribute gives [undefined].
    The texts "true", "false" and "null" give the values they name.  A
    text that is the printed form of a Number gives that Number, which
    prints as the text again and is falsy for "0" and "NaN" only.  A text
    in braces or brackets gives what [JSON.parse] makes of it, an object
    or an array, which is truthy, and stays a string when [JSON.parse]
    throws.  Every other text stays a string, falsy when empty. *)
Definition data (attribute : option string) : value :=
  match attribute with
  | None => {| truthy := false; printed := "undefined" |}
  | Some t =>
      if String.eqb t "true" then {| truthy := true; printed := "true" |}
      else if String.eqb t "false" then {| truthy := false; printed := "false" |}
      else if String.eqb t "null" then {| truthy := false; printed := "null" |}
      else if (String.eqb t "0" || String.eqb t "NaN")%bool
      then {| truthy := false; printed := t |}
      else if json_text t then
        match JSON_parse t with
        | Some object => {| truthy := true; printed := object |}
        | None => {| truthy := true; printed := t |}
        end
      else {| truthy := negb (String.eqb t ""); printed := t |}
  end.

(** Lines 26-34; [answer] is what the user answers to [confirm]. *)
Definition on_click (answer : bool) (p : page) : page :=
  let url := href p in
  let name := data (data_name p) in
  let itemName := if truthy name then printed name else "this item" in
  let prompt :=
    "Are you sure you want to delete " +:+ itemName
      +:+ "? This action cannot be undone." in
  {| href := href p; data_name := data_name p;
     location := if answer then ToString url else location p;
     prompts := prompts p ++ [prompt] |}.

End Data.

End ConfirmDelete.


(** ** Select all (the [.select-all] change handler) *)

Module SelectAll.

(** Lines 293-296; [isChecked] is [$(this).is(':checked')]. *)
Definition on_change (isChecked : bool) (p : Bulk.page) : Bulk.page :=
  {| Bulk.bulk_select :=
       map (fun b => {| Bulk.value := Bulk.value b; Bulk.is_checked := isChecked |})
         (Bulk.bulk_select p);
     Bulk.effects := Bulk.effects p;
     Bulk.toasts := Bulk.toasts p |}.

End SelectAll.

(** ** Further notions used to state the properties *)

(** Clicks on the theme switcher, one clock reading per click. *)
Definition theme_clicks (nows : list Z) (b : Theme.browser) : Theme.browser :=
  fold_left (fun b now => Theme.on_click now b) nows b.

Definition is_dark (b : Theme.browser) : bool :=
  match Theme.data_bs_theme b with
  | Some t => String.eqb t "dark"
  | None => false
  end.

(** The number of days of a year that precede its month [m] (0 to 11). *)
Definition days_before_month (m leap : Z) : Z :=
  match m with
  | 0 => 0
  | 1 => 31
  | 2 => 59 + leap
  | 3 => 90 + leap
  | 4 => 120 + leap
  | 5 => 151 + leap
  | 6 => 181 + leap
  | 7 => 212 + leap
  | 8 => 243 + leap
  | 9 => 273 + leap
  | 10 => 304 + leap
  | _ => 334 + leap
  end.

(** The severity with which a completed request is notified. *)
Definition severity {R : Type} (success : R -> bool) (result : ajax_result R) : string :=
  match result with
  | Success response => if success response then "success" else "danger"
  | Error _ => "danger"
  end.

(** A page listing three orders, the second one checked. *)
Definition three_orders : Bulk.page :=
  {| Bulk.bulk_select :=
       [ {| Bulk.value := "101"; Bulk.is_checked := false |};
         {| Bulk.value := "102"; Bulk.is_checked := true |};
         {| Bulk.value := "103"; Bulk.is_checked := false |} ];
     Bulk.effects := [];
     Bulk.toasts := no_toasts |}.

(** * Properties *)

(** ** Facts about toasts *)

Lemma show_first_ids id ts : map toast_id (show_first id ts) = map toast_id ts.
Proof.
  induction ts as [|t rest IH]; simpl; [done|].
  destruct (String.eqb (toast_id t) id); simpl; [done|by rewrite IH].
Qed.

Lemma show_first_content id ts :
  map toast_content (show_first id ts) = map toast_content ts.
Proof.
  induction ts as [|t rest IH]; simpl; [done|].
  destruct (String.eqb (toast_id t) id); simpl; [done|by rewrite IH].
Qed.

Lemma showToast_ids title message type now dom :
  map toast_id (container (showToast title message type now dom))
  = map toast_id (container dom) ++ [toastId now].
Proof. simpl. by rewrite show_first_ids, map_app. Qed.

Lemma showToast_log title message type now dom :
  toast_log (showToast title message type now dom)
  = toast_log dom ++ [(title, ToString message, type)].
Proof. unfold toast_log. simpl. by rewrite show_first_content, map_app. Qed.

Lemma toastId_inj : Inj (=) (=) toastId.
Proof.
  intros a b H. unfold toastId, num_to_string in H.
  apply (inj (String.app "toast-")) in H. by apply (inj pretty) in H.
Qed.



(** A toast that has finished hiding is gone from the container. *)
Lemma hidden_after_show title message type now :
  container (hidden (toastId now) (showToast title message type now no_toasts)) = [].
Proof.
  unfold hidden, showToast. simpl. rewrite String.eqb_refl. simpl.
  by rewrite String.eqb_refl.
Qed.

Lemma show_first_fresh id ts t :
  id ∉ map toast_id ts -> toast_id t = id ->
  show_first id (ts ++ [t])
  = ts ++ [{| toast_id := toast_id t; toast_title := toast_title t;
              toast_message := toast_message t; toast_type := toast_type t;
              toast_shown := true |}].
Proof.
  intros Hfresh Hid. induction ts as [|u ts IH]; simpl.
  - rewrite Hid, String.eqb_refl. reflexivity.
  - destruct (String.eqb_spec (toast_id u) id) as [Heq|Hne].
    + exfalso. apply Hfresh. simpl. rewrite Heq. apply elem_of_cons. by left.
    + rewrite IH; [reflexivity|]. intros Hin. apply Hfresh. simpl.
      apply elem_of_cons. by right.
Qed.

Lemma show_first_taken id ts t :
  id ∈ map toast_id ts -> show_first id (ts ++ [t]) = show_first id ts ++ [t].
Proof.
  induction ts as [|u ts IH]; simpl; intros Hin.
  - by apply elem_of_nil in Hin.
  - destruct (String.eqb_spec (toast_id u) id) as [Heq|Hne]; [reflexivity|].
    apply elem_of_cons in Hin as [Hin|Hin]; [congruence|].
    by rewrite IH.
Qed.

Lemma remove_first_fresh id ts t :
  id ∉ map toast_id ts -> toast_id t = id -> remove_first id (ts ++ [t]) = ts.
Proof.
  intros Hfresh Hid. induction ts as [|u ts IH]; simpl.
  - by rewrite Hid, String.eqb_refl.
  - destruct (String.eqb_spec (toast_id u) id) as [Heq|Hne].
    + exfalso. apply Hfresh. simpl. rewrite Heq. apply elem_of_cons. by left.
    + rewrite IH; [reflexivity|]. intros Hin. apply Hfresh. simpl.
      apply elem_of_cons. by right.
Qed.

(** The second of two toasts requested in one millisecond gets the id of
    the first, so [getElementById] finds the first one again and the
    second is never shown. *)
Example same_millisecond_second_toast_hidden :
  map (fun t => (toast_id t, toast_shown t))
    (container (run_session [info_at 1700000000000; done_at 1700000000000] no_toasts))
  = [("toast-1700000000000", true); ("toast-1700000000000", false)].
Proof. vm_compute. reflexivity. Qed.




(** ** Update order status *)

Lemma addClass_elem name cls : name ∈ addClass name cls.
Proof.
  unfold addClass. case_decide; [done|].
  set_solver.
Qed.

Lemma badgeClass_spec (s : string) :
  UpdateStatus.badgeClass s = UpdateStatus.spec_badge_color s.
Proof.
  unfold UpdateStatus.badgeClass, UpdateStatus.spec_badge_color. simpl.
  repeat (destruct (String.eqb s _); [reflexivity|]). reflexivity.
Qed.

Lemma removeClass_removes names cls :
  filter (fun c => c ∈ names) (removeClass names cls) = [].
Proof.
  unfold removeClass. induction cls as [|c cls IH]; [reflexivity|].
  rewrite filter_cons. case_decide as Hc; [|exact IH].
  rewrite filter_cons. case_decide; [contradiction|exact IH].
Qed.

Lemma removeClass_elem names cls c : c ∈ removeClass names cls -> c ∉ names.
Proof. unfold removeClass. intros H. by apply list_elem_of_filter in H as [? _]. Qed.

Lemma assoc_color s c :
  UpdateStatus.assoc s UpdateStatus.status_colors = Some c ->
  c ∈ map snd UpdateStatus.status_colors.
Proof.
  unfold UpdateStatus.status_colors. simpl.
  repeat (destruct (String.eqb s _); [intros [= <-]; set_solver|]).
  discriminate.
Qed.

Lemma success_badge_colors this rq s m now p :
  filter (fun c => c ∈ map snd UpdateStatus.status_colors)
    (UpdateStatus.badge_classes
       (UpdateStatus.on_success this rq
          {| UpdateStatus.success := true; UpdateStatus.new_status := s;
             UpdateStatus.message := m |} now p))
  = match UpdateStatus.assoc s UpdateStatus.status_colors with
    | Some c => [c]
    | None => []
    end.
Proof.
  set (colors := map snd UpdateStatus.status_colors).
  change (UpdateStatus.badge_classes _)
    with (addClass (UpdateStatus.badgeClass s)
            (removeClass colors (UpdateStatus.badge_classes p))).
  set (cls := removeClass colors (UpdateStatus.badge_classes p)).
  pose proof (removeClass_removes colors (UpdateStatus.badge_classes p)) as Hnone.
  fold cls in Hnone. rewrite badgeClass_spec. unfold UpdateStatus.spec_badge_color.
  destruct (UpdateStatus.assoc s UpdateStatus.status_colors) as [c|] eqn:E.
  - apply assoc_color in E. fold colors in E.
    unfold addClass. case_decide as Hin.
    + apply removeClass_elem in Hin. contradiction.
    + rewrite filter_app, Hnone, filter_cons. simpl.
      case_decide; [reflexivity|contradiction].
  - unfold addClass. case_decide as Hin; [exact Hnone|].
    rewrite filter_app, Hnone. reflexivity.
Qed.

(** C3: on a successful status update the badge class is a function of
    the acknowledged status only: it is the colour the table gives to the
    status, each of the five enumerated statuses having its own colour
    among the five enumerated ones, and the default colour for any other
    status; afterwards the badge carries that class, and of the five
    enumerated colours it carries that one only (none of them after a
    status that is not enumerated). *)
Theorem badge_class_follows_status_table :
  (forall s, UpdateStatus.badgeClass s = UpdateStatus.spec_badge_color s)
  /\ map fst UpdateStatus.status_colors = order_statuses
  /\ map UpdateStatus.badgeClass order_statuses
     = ["bg-primary"; "bg-warning"; "bg-info"; "bg-success"; "bg-danger"]
  /\ NoDup (UpdateStatus.default_color
              :: map UpdateStatus.badgeClass order_statuses)
  /\ (forall s, s ∈ order_statuses
                \/ UpdateStatus.badgeClass s = UpdateStatus.default_color)
  /\ (forall this rq s m now p,
        let p' :=
          UpdateStatus.on_success this rq
            {| UpdateStatus.success := true; UpdateStatus.new_status := s;
               UpdateStatus.message := m |} now p in
        UpdateStatus.badgeClass s ∈ UpdateStatus.badge_classes p'
        /\ filter (fun c => c ∈ map snd UpdateStatus.status_colors)
             (UpdateStatus.badge_classes p')
           = match UpdateStatus.assoc s UpdateStatus.status_colors with
             | Some c => [c]
             | None => []
             end).
Proof.
  split; [exact badgeClass_spec|].
  split; [reflexivity|]. split; [reflexivity|]. split.
  { simpl. by apply (bool_decide_unpack _). }
  split.
  - intros s. unfold UpdateStatus.badgeClass, order_statuses.
    destruct (String.eqb_spec s "pending") as [->|_]; [left; set_solver|].
    destruct (String.eqb_spec s "processing") as [->|_]; [left; set_solver|].
    destruct (String.eqb_spec s "confirmed") as [->|_]; [left; set_solver|].
    destruct (String.eqb_spec s "delivered") as [->|_]; [left; set_solver|].
    destruct (String.eqb_spec s "cancelled") as [->|_]; [left; set_solver|].
    right. reflexivity.
  - intros this rq s m now p. split; [|apply success_badge_colors].
    unfold UpdateStatus.on_success. simpl. apply addClass_elem.
Qed.

(** Whatever [this] is, the rejection branch of the [success] callback
    leaves the status label as the handler set it: showing the spinner. *)
Lemma rejection_leaves_label (this : jq_target) rq s m now p :
  UpdateStatus.status_text
    (UpdateStatus.on_success this rq
       {| UpdateStatus.success := false; UpdateStatus.new_status := s;
          UpdateStatus.message := m |} now p)
  = UpdateStatus.status_text p.
Proof. destruct this; reflexivity. Qed.

(** The [error] callback does put the label text back. *)
Lemma transport_error_restores_label (this : jq_target) rq error now p :
  UpdateStatus.status_text (UpdateStatus.on_error this rq error now p)
  = UpdateStatus.text (UpdateStatus.originalStatus rq).
Proof. destruct this; reflexivity. Qed.

(** Inside the callbacks [this] is the settings object, so neither
    callback assigns the select. *)
Lemma completion_keeps_select rq result now p :
  UpdateStatus.context rq = None ->
  UpdateStatus.select_value (UpdateStatus.complete rq result now p)
  = UpdateStatus.select_value p.
Proof.
  intros Hctx. unfold UpdateStatus.complete. rewrite Hctx. simpl.
  destruct result as [r|e]; simpl; [|reflexivity].
  unfold UpdateStatus.on_success. destruct (UpdateStatus.success r); reflexivity.
Qed.

Lemma status_interaction_keeps_new_value v result now p :
  UpdateStatus.select_value (UpdateStatus.interaction v result now p) = v.
Proof.
  unfold UpdateStatus.interaction, UpdateStatus.on_change.
  rewrite completion_keeps_select by reflexivity. reflexivity.
Qed.

(** Had the callbacks been given the select as their context, they would
    assign it [data('original-status')], the status the page was rendered
    with. *)
Lemma select_context_assigns_rendered_status rq error now p s :
  UpdateStatus.original_status p = VString s ->
  s ∈ UpdateStatus.select_options p ->
  UpdateStatus.select_value (UpdateStatus.on_error Element rq error now p) = s.
Proof.
  intros Hdata Hin. unfold UpdateStatus.on_error. simpl. rewrite Hdata.
  simpl. case_decide; [reflexivity|contradiction].
Qed.

(** C1 at a failing input: the order shows "pending" / "PENDING", the
    user selects "delivered" and the server answers
    [{success: false, message: "locked"}].  Afterwards the select still
    reads "delivered" and the label still reads " Updating...": neither
    holds what it held before the change. *)
Theorem rejected_status_update_is_not_reverted (now : Z) :
  let p' := UpdateStatus.interaction "delivered" (Success locked) now pending_order in
  UpdateStatus.select_value pending_order = "pending"
  /\ UpdateStatus.label_text (UpdateStatus.status_text pending_order) = "PENDING"
  /\ UpdateStatus.select_value p' = "delivered"
  /\ UpdateStatus.label_text (UpdateStatus.status_text p') = " Updating..."
  /\ UpdateStatus.label_spinner (UpdateStatus.status_text p') = true.
Proof. simpl. repeat split; reflexivity. Qed.

(** After a transport failure the label is restored but the select is
    not. *)
Example failed_status_update_keeps_new_value (now : Z) :
  let p' := UpdateStatus.interaction "delivered" (Error "timeout") now pending_order in
  UpdateStatus.select_value p' = "delivered"
  /\ UpdateStatus.status_text p' = UpdateStatus.text "PENDING".
Proof. simpl. split; reflexivity. Qed.

(** ** Boolean toggles *)

Lemma active_failure_writes_settings_object rq now p m :
  ToggleActive.context rq = None ->
  ToggleActive.settings
    (ToggleActive.complete rq
       (Success {| ToggleActive.success := false; ToggleActive.message := m |})
       now p) !! "checked"
  = Some (VBool (negb (ToggleActive.isActive rq))).
Proof.
  intros Hctx. unfold ToggleActive.complete. rewrite Hctx. simpl.
  apply lookup_insert_eq.
Qed.

Lemma active_completion_keeps_checkbox rq result now p :
  ToggleActive.context rq = None ->
  ToggleActive.checked (ToggleActive.complete rq result now p)
  = ToggleActive.checked p.
Proof.
  intros Hctx. unfold ToggleActive.complete. rewrite Hctx. simpl.
  destruct result as [r|e]; simpl; [|reflexivity].
  unfold ToggleActive.on_success. destruct (ToggleActive.success r); reflexivity.
Qed.

Lemma approval_completion_keeps_checkbox rq result now p :
  ToggleApproval.context rq = None ->
  ToggleApproval.checked (ToggleApproval.complete rq result now p)
  = ToggleApproval.checked p.
Proof.
  intros Hctx. unfold ToggleApproval.complete. rewrite Hctx. simpl.
  destruct result as [r|e]; simpl; [|reflexivity].
  unfold ToggleApproval.on_success.
  destruct (ToggleApproval.success r); reflexivity.
Qed.

(** Had the callbacks been given the checkbox as their context, the
    failure branches would put the pre-toggle boolean back. *)
Lemma checkbox_context_reverts p now m :
  let '(p', rq) := ToggleActive.on_change (ToggleActive.user_toggle p) in
  ToggleActive.checked
    (ToggleActive.on_success Element rq
       {| ToggleActive.success := false; ToggleActive.message := m |} now p')
  = ToggleActive.checked p.
Proof. simpl. apply negb_involutive. Qed.

(** C2 on failing inputs: after a toggle whose request fails, by
    rejection or by transport failure, the checkbox of either handler
    holds the toggled boolean, the negation of the one it held before the
    user's toggle; the pre-toggle boolean is written to the [checked]
    property of the settings object of the request instead. *)
Theorem failed_toggle_is_not_reverted (now : Z) (m : jsval) (error : string) :
  (forall p,
     ToggleActive.checked
       (ToggleActive.interaction
          (Success {| ToggleActive.success := false; ToggleActive.message := m |})
          now p)
     = negb (ToggleActive.checked p)
     /\ ToggleActive.checked (ToggleActive.interaction (Error error) now p)
        = negb (ToggleActive.checked p)
     /\ ToggleActive.settings (ToggleActive.interaction (Error error) now p)
          !! "checked"
        = Some (VBool (ToggleActive.checked p)))
  /\ (forall p,
        ToggleApproval.checked
          (ToggleApproval.interaction
             (Success {| ToggleApproval.success := false;
                         ToggleApproval.message := m |})
             now p)
        = negb (ToggleApproval.checked p)
        /\ ToggleApproval.checked (ToggleApproval.interaction (Error error) now p)
           = negb (ToggleApproval.checked p)
        /\ ToggleApproval.settings (ToggleApproval.interaction (Error error) now p)
             !! "checked"
           = Some (VBool (ToggleApproval.checked p)))
  /\ ToggleActive.checked inactive_user = false
  /\ ToggleActive.checked
       (ToggleActive.interaction
          (Success {| ToggleActive.success := false;
                      ToggleActive.message := VString "denied" |})
          now inactive_user)
     = true
  /\ ToggleApproval.checked pending_review = false
  /\ ToggleApproval.checked
       (ToggleApproval.interaction (Error "timeout") now pending_review)
     = true.
Proof.
  split; [|split; [|repeat split; reflexivity]].
  - intros p. unfold ToggleActive.interaction, ToggleActive.on_change.
    rewrite !active_completion_keeps_checkbox by reflexivity.
    split; [reflexivity|]. split; [reflexivity|].
    simpl. rewrite lookup_insert_eq. by rewrite negb_involutive.
  - intros p. unfold ToggleApproval.interaction, ToggleApproval.on_change.
    rewrite !approval_completion_keeps_checkbox by reflexivity.
    split; [reflexivity|]. split; [reflexivity|].
    simpl. rewrite lookup_insert_eq. by rewrite negb_involutive.
Qed.

(** ** Error notifications *)

Lemma showToast_error_notification title message now dom :
  error_notification (ToString message) dom (showToast title message "danger" now dom).
Proof. exists title. apply showToast_log. Qed.

Section StatsFormatting.

Variable number : Type.
Variables String_of toLocaleString_en_IN toFixed_2 : number -> string.

Let tick := Stats.updateDashboardStats String_of toLocaleString_en_IN toFixed_2.

Lemma stats_failure_changes_nothing (f : Stats.failed_tick number) (p : Stats.page) :
  tick (Stats.result_of_failure f) p = p.
Proof. destruct f; reflexivity. Qed.

End StatsFormatting.

(** The statistics refresh notifies no rejection. *)
Lemma stats_rejection_is_not_notified :
  ~ exists message,
      error_notification message (Stats.toasts stale_dashboard)
        (Stats.toasts
           (Stats.updateDashboardStats num_to_string num_to_string num_to_string
              (Stats.result_of_failure (Stats.Rejected no_stats (VString "locked")))
              stale_dashboard)).
Proof.
  intros [message [title H]]. simpl in H. discriminate H.
Qed.

(** A rejection that carries no message is notified with the text
    "undefined". *)
Example rejection_without_message (now : Z) :
  toast_log
    (UpdateStatus.toasts
       (UpdateStatus.interaction "delivered"
          (Success {| UpdateStatus.success := false; UpdateStatus.new_status := "";
                      UpdateStatus.message := VUndefined |})
          now pending_order))
  = [("Error", "undefined", "danger")].
Proof.
  change (toast_log (showToast "Error" VUndefined "danger" now no_toasts)
          = [("Error", "undefined", "danger")]).
  apply showToast_log.
Qed.





(** ** Statistics refresh *)

Section StatsRefresh.

Variable number : Type.
Variables String_of toLocaleString_en_IN toFixed_2 : number -> string.

Let run := Stats.run_ticks String_of toLocaleString_en_IN toFixed_2.
Let display := Stats.updateStatsDisplay String_of toLocaleString_en_IN toFixed_2.

Lemma failed_ticks_change_nothing (fs : list (Stats.failed_tick number))
    (p : Stats.page) :
  run (map Stats.result_of_failure fs) p = p.
Proof.
  induction fs as [|f fs IH]; [reflexivity|].
  unfold run, Stats.run_ticks in *. simpl.
  rewrite stats_failure_changes_nothing. exact IH.
Qed.

(** C8: a failed tick of the statistics refresh, and any run of failed
    ticks, changes none of the four slots and shows no notification; the
    display changes at the next successful tick. *)
Theorem failed_stats_refresh_is_silent (fs : list (Stats.failed_tick number))
    (p : Stats.page) (fresh : Stats.stats number) (m : jsval) :
  let p' := run (map Stats.result_of_failure fs) p in
  Stats.stat_orders p' = Stats.stat_orders p
  /\ Stats.stat_revenue p' = Stats.stat_revenue p
  /\ Stats.stat_avg_order p' = Stats.stat_avg_order p
  /\ Stats.stat_customers p' = Stats.stat_customers p
  /\ Stats.toasts p' = Stats.toasts p
  /\ run (map Stats.result_of_failure fs
            ++ [Success {| Stats.success := true; Stats.response_stats := fresh;
                           Stats.message := m |}]) p
     = display fresh p.
Proof.
  simpl. rewrite failed_ticks_change_nothing. repeat split.
  unfold run, Stats.run_ticks. rewrite fold_left_app.
  fold (Stats.run_ticks String_of toLocaleString_en_IN toFixed_2
          (map Stats.result_of_failure fs) p).
  fold run. rewrite failed_ticks_change_nothing. reflexivity.
Qed.

End StatsRefresh.

(** ** Bulk actions *)






(** ** Theme switcher *)

Lemma check_saved_theme_applies (b : Theme.browser) (s : string) :
  Theme.localStorage b !! "theme" = Some s -> s <> "" ->
  Theme.data_bs_theme (Theme.check_saved_theme b) = Some s.
Proof.
  intros Hsaved Hne. unfold Theme.check_saved_theme. rewrite Hsaved. simpl.
  destruct (String.eqb_spec s "") as [->|_]; [contradiction|reflexivity].
Qed.

Lemma check_saved_theme_without_item (b : Theme.browser) :
  Theme.localStorage b !! "theme" = None ->
  Theme.check_saved_theme b = b.
Proof. intros Hnone. unfold Theme.check_saved_theme. by rewrite Hnone. Qed.

Lemma click_saves_theme now b :
  Theme.localStorage (Theme.on_click now b) !! "theme"
  = Theme.data_bs_theme (Theme.on_click now b).
Proof. unfold Theme.on_click. simpl. apply lookup_insert_eq. Qed.

Lemma click_theme_is_light_or_dark now b :
  Theme.data_bs_theme (Theme.on_click now b) = Some "light"
  \/ Theme.data_bs_theme (Theme.on_click now b) = Some "dark".
Proof.
  unfold Theme.on_click. simpl. destruct (Theme.data_bs_theme b) as [t|]; [|by right].
  destruct (String.eqb t "dark"); [by left|by right].
Qed.

(** C5, as stated, fails: on a document whose root has no theme
    attribute, two clicks leave the attribute at "light", which is not
    what it was. *)
Lemma double_toggle_does_not_restore_absent_theme :
  Theme.data_bs_theme
    (Theme.on_click 1700000000001 (Theme.on_click 1700000000000 fresh_browser))
  = Some "light"
  /\ Theme.data_bs_theme
       (Theme.on_click 1700000000001 (Theme.on_click 1700000000000 fresh_browser))
     <> Theme.data_bs_theme fresh_browser.
Proof. split; [reflexivity|]. intros H. vm_compute in H. discriminate H. Qed.

(** C5 (amended): when the root's theme attribute is "light" or "dark",
    two clicks restore it; every click stores the theme it chose under
    the key [theme], a reload after a click applies that theme whatever
    the markup says, and in general a page load applies the stored theme
    when it is a non-empty string. *)
Theorem theme_toggle_round_trip (t : string) (now1 now2 : Z)
    (markup : option string) (b : Theme.browser)
    (storage : gmap string string) (s : string) :
  Theme.data_bs_theme b = Some t ->
  t = "light" \/ t = "dark" ->
  storage !! "theme" = Some s ->
  s <> "" ->
  let b1 := Theme.on_click now1 b in
  let b2 := Theme.on_click now2 b1 in
  Theme.data_bs_theme b1 = Some (if String.eqb t "dark" then "light" else "dark")
  /\ Theme.data_bs_theme b2 = Theme.data_bs_theme b
  /\ Theme.localStorage b1 !! "theme" = Theme.data_bs_theme b1
  /\ Theme.localStorage b2 !! "theme" = Theme.data_bs_theme b2
  /\ Theme.data_bs_theme (Theme.reload markup b1) = Theme.data_bs_theme b1
  /\ Theme.data_bs_theme (Theme.load markup storage) = Some s.
Proof.
  intros Hb Ht Hsaved Hne b1 b2.
  split; [subst b1; unfold Theme.on_click; simpl; by rewrite Hb|].
  split.
  { subst b2 b1. unfold Theme.on_click at 1. simpl.
    unfold Theme.on_click. simpl. rewrite Hb.
    destruct Ht as [-> | ->]; reflexivity. }
  split; [apply click_saves_theme|]. split; [apply click_saves_theme|].
  split.
  - unfold Theme.reload, Theme.load.
    pose proof (click_saves_theme now1 b) as Hsave. fold b1 in Hsave.
    destruct (click_theme_is_light_or_dark now1 b) as [H|H]; fold b1 in H;
      rewrite H in *; apply check_saved_theme_applies;
      first [exact Hsave | discriminate].
  - unfold Theme.load. by apply check_saved_theme_applies.
Qed.

(** An instance: a document rendered light, and a saved dark theme. *)
Lemma theme_toggle_round_trip_witness :
  Theme.data_bs_theme light_browser = Some "light"
  /\ ("light" = "light" \/ "light" = "dark")
  /\ ({["theme" := "dark"]} : gmap string string) !! "theme" = Some "dark"
  /\ "dark" <> ""
  /\ Theme.data_bs_theme
       (Theme.on_click 1700000000001 (Theme.on_click 1700000000000 light_browser))
     = Theme.data_bs_theme light_browser
  /\ Theme.data_bs_theme (Theme.load None {["theme" := "dark"]}) = Some "dark".
Proof.
  assert (H1 : Theme.data_bs_theme light_browser = Some "light") by reflexivity.
  assert (H2 : "light" = "light" \/ "light" = "dark") by (left; reflexivity).
  assert (H3 : ({["theme" := "dark"]} : gmap string string) !! "theme" = Some "dark")
    by apply lookup_singleton_eq.
  assert (H4 : "dark" <> "") by discriminate.
  destruct (theme_toggle_round_trip "light" 1700000000000 1700000000001 None
              light_browser {["theme" := "dark"]} "dark" H1 H2 H3 H4)
    as (_ & Hround & _ & _ & _ & Hload).
  repeat split; assumption.
Defined.

(** ** Dates *)

Import JSDate.

Lemma DayFromYear_mono y y' : y <= y' -> DayFromYear y <= DayFromYear y'.
Proof. unfold DayFromYear. intros H. Z.to_euclidean_division_equations; lia. Qed.

Lemma DayFromYear_succ y : DayFromYear (y + 1) = DayFromYear y + DaysInYear y.
Proof.
  unfold DayFromYear, DaysInYear.
  destruct (Z.eqb_spec (y mod 4) 0), (Z.eqb_spec (y mod 100) 0),
    (Z.eqb_spec (y mod 400) 0); simpl;
    Z.to_euclidean_division_equations; lia.
Qed.

Lemma year_search_spec fuel : forall day y,
  DayFromYear y <= day -> day < DayFromYear (y + Z.of_nat fuel + 1) ->
  DayFromYear (year_search fuel day y) <= day
  < DayFromYear (year_search fuel day y + 1).
Proof.
  induction fuel as [|fuel IH]; intros day y Hlo Hhi; simpl.
  - replace (y + Z.of_nat 0 + 1) with (y + 1) in Hhi by lia. lia.
  - destruct (Z.leb_spec (DayFromYear (y + 1)) day) as [Hle|Hgt]; [|lia].
    apply IH; [exact Hle|].
    replace (y + 1 + Z.of_nat fuel + 1) with (y + Z.of_nat (S fuel) + 1) by lia.
    exact Hhi.
Qed.

Lemma year_start_below day : DayFromYear (year_start day) <= day.
Proof.
  unfold year_start, DayFromYear.
  destruct (Z.ltb_spec day 0); Z.to_euclidean_division_equations; lia.
Qed.

Lemma year_fuel_enough day :
  day < DayFromYear (year_start day + Z.of_nat (year_fuel day) + 1).
Proof.
  unfold year_fuel. rewrite Z2Nat.id by (Z.to_euclidean_division_equations; lia).
  unfold year_start, DayFromYear.
  destruct (Z.ltb_spec day 0); Z.to_euclidean_division_equations; lia.
Qed.

(** YearFromTime meets its definition in ECMA-262: the year found is the
    one whose days contain the day of [t]. *)
Lemma YearFromTime_spec t :
  DayFromYear (YearFromTime t) <= Day t < DayFromYear (YearFromTime t + 1).
Proof.
  unfold YearFromTime, YearFromDay.
  apply year_search_spec; [apply year_start_below|apply year_fuel_enough].
Qed.

Lemma YearFromTime_unique t y :
  DayFromYear y <= Day t < DayFromYear (y + 1) -> YearFromTime t = y.
Proof.
  intros Hy. pose proof (YearFromTime_spec t) as Hs.
  destruct (Z.lt_trichotomy (YearFromTime t) y) as [Hlt|[Heq|Hgt]]; [|exact Heq|].
  - pose proof (DayFromYear_mono (YearFromTime t + 1) y). lia.
  - pose proof (DayFromYear_mono (y + 1) (YearFromTime t)). lia.
Qed.

Lemma YearFromTime_range t :
  TimeFromYear 0 <= t < TimeFromYear 10000 -> 0 <= YearFromTime t <= 9999.
Proof.
  intros Ht. pose proof (YearFromTime_spec t) as Hs.
  assert (Hd : DayFromYear 0 <= Day t < DayFromYear 10000).
  { unfold TimeFromYear, Day, msPerDay in *.
    split; [apply Z.div_le_lower_bound; lia|apply Z.div_lt_upper_bound; lia]. }
  split.
  - destruct (Z.le_gt_cases 0 (YearFromTime t)) as [H|H]; [exact H|].
    pose proof (DayFromYear_mono (YearFromTime t + 1) 0). lia.
  - destruct (Z.le_gt_cases (YearFromTime t) 9999) as [H|H]; [exact H|].
    pose proof (DayFromYear_mono 10000 (YearFromTime t)). lia.
Qed.

Lemma DaysInYear_leap t : DaysInYear (YearFromTime t) = 365 + InLeapYear t.
Proof.
  unfold InLeapYear, DaysInYear.
  destruct (Z.eqb_spec (YearFromTime t mod 4) 0),
    (Z.eqb_spec (YearFromTime t mod 100) 0),
    (Z.eqb_spec (YearFromTime t mod 400) 0); reflexivity.
Qed.

Lemma InLeapYear_range t : 0 <= InLeapYear t <= 1.
Proof. unfold InLeapYear. destruct (_ =? _); lia. Qed.

Lemma DayWithinYear_range t : 0 <= DayWithinYear t < 365 + InLeapYear t.
Proof.
  unfold DayWithinYear. pose proof (YearFromTime_spec t) as Hs.
  rewrite DayFromYear_succ, DaysInYear_leap in Hs. lia.
Qed.

Lemma month_and_date_range t :
  0 <= MonthFromTime t <= 11 /\ 1 <= DateFromTime t <= 31.
Proof.
  unfold DateFromTime, MonthFromTime.
  pose proof (DayWithinYear_range t) as Hd. pose proof (InLeapYear_range t) as Hl.
  generalize dependent (DayWithinYear t). generalize dependent (InLeapYear t).
  intros leap Hl d Hd.
  repeat match goal with
         | |- context [Z.ltb ?a ?b] => destruct (Z.ltb_spec a b)
         end; simpl; lia.
Qed.

(** ** Strings *)

Lemma string_app_length (a b : string) :
  String.length (a +:+ b) = (String.length a + String.length b)%nat.
Proof. induction a as [|c a IH]; simpl; [reflexivity|by rewrite IH]. Qed.

Lemma string_app_assoc (a b c : string) : (a +:+ b) +:+ c = a +:+ (b +:+ c).
Proof.
  induction a as [|x a IH]; [reflexivity|].
  change (String x ((a +:+ b) +:+ c) = String x (a +:+ (b +:+ c))).
  by rewrite IH.
Qed.

Lemma substring_all (s : string) : String.substring 0 (String.length s) s = s.
Proof. induction s as [|c s IH]; simpl; [reflexivity|by rewrite IH]. Qed.

Lemma substring_0_app (a b : string) :
  String.substring 0 (String.length a) (a +:+ b) = a.
Proof.
  induction a as [|c a IH]; simpl; [by destruct b|by rewrite IH].
Qed.

Lemma substring_skip_app (a b : string) (n : nat) :
  String.substring (String.length a) n (a +:+ b) = String.substring 0 n b.
Proof. induction a as [|c a IH]; simpl; [reflexivity|exact IH]. Qed.

Lemma pad_length k : forall n, String.length (pad k n) = k.
Proof.
  induction k as [|k IH]; intros n; simpl; [reflexivity|].
  rewrite string_app_length, IH. simpl. lia.
Qed.

Lemma iso_date_slice t :
  0 <= YearFromTime t <= 9999 ->
  slice_0 10 (toISOString t)
  = pad 4 (YearFromTime t) +:+ "-" +:+ pad 2 (MonthFromTime t + 1)
      +:+ "-" +:+ pad 2 (DateFromTime t).
Proof.
  intros Hy. unfold slice_0, toISOString.
  assert (Hd : date_string t
               = pad 4 (YearFromTime t) +:+ "-" +:+ pad 2 (MonthFromTime t + 1)
                   +:+ "-" +:+ pad 2 (DateFromTime t)).
  { unfold date_string, year_string.
    destruct (Z.leb_spec 0 (YearFromTime t)); [|lia].
    destruct (Z.leb_spec (YearFromTime t) 9999); [|lia]. reflexivity. }
  rewrite <- Hd.
  assert (Hlen : String.length (date_string t) = 10%nat).
  { rewrite Hd. rewrite !string_app_length, !pad_length. reflexivity. }
  rewrite <- Hlen. apply substring_0_app.
Qed.

(** ** Export *)

(** C9, as stated, fails: a click just before midnight (UTC) whose
    response is handled just after it names the file after the day of
    the response, not the day of the click. *)
Lemma export_name_is_not_dated_at_click :
  ExportData.downloads
    (ExportData.click_then_success before_midnight after_midnight orders_export)
  = ["export_orders_2024-01-02.csv"]
  /\ ExportData.download_name (VString "orders") before_midnight
     = "export_orders_2024-01-01.csv"
  /\ ExportData.downloads
       (ExportData.click_then_success before_midnight after_midnight orders_export)
     <> [ExportData.download_name (VString "orders") before_midnight].
Proof.
  split; [vm_compute; reflexivity|]. split; [vm_compute; reflexivity|].
  intros H. vm_compute in H. discriminate H.
Qed.

(** C9 (amended): the file is named [export_<type>_<YYYY-MM-DD>.csv],
    where [<type>] is the text of the link's [data-type] and
    [<YYYY-MM-DD>] is the UTC calendar date, in four, two and two digits,
    of the moment the [success] callback runs, for every such moment in
    the years 0 to 9999; the time of the click plays no part. *)
Theorem export_name_is_dated_at_response (click response : Z)
    (p : ExportData.page) :
  TimeFromYear 0 <= response < TimeFromYear 10000 ->
  let y := YearFromTime response in
  let m := MonthFromTime response + 1 in
  let d := DateFromTime response in
  ExportData.downloads (ExportData.click_then_success click response p)
  = ExportData.downloads p
      ++ ["export_" +:+ ToString (ExportData.export_type p) +:+ "_"
            +:+ (pad 4 y +:+ "-" +:+ pad 2 m +:+ "-" +:+ pad 2 d) +:+ ".csv"]
  /\ TimeFromYear y <= response < TimeFromYear (y + 1)
  /\ 0 <= y <= 9999 /\ 1 <= m <= 12 /\ 1 <= d <= 31.
Proof.
  intros Ht y m d.
  pose proof (YearFromTime_range response Ht) as Hy.
  pose proof (month_and_date_range response) as [Hm Hd].
  pose proof (YearFromTime_spec response) as Hs.
  split.
  { unfold ExportData.click_then_success, ExportData.on_click,
      ExportData.on_success, ExportData.download_name. simpl.
    rewrite (iso_date_slice response Hy). reflexivity. }
  split.
  { fold y in Hs. unfold TimeFromYear, Day, msPerDay in *.
    generalize dependent (DayFromYear y). generalize dependent (DayFromYear (y + 1)).
    intros. Z.to_euclidean_division_equations; lia. }
  subst y m d. lia.
Qed.

(** An instance: the export answered just after midnight. *)
Lemma export_name_is_dated_at_response_witness :
  TimeFromYear 0 <= after_midnight < TimeFromYear 10000
  /\ ExportData.downloads
       (ExportData.click_then_success before_midnight after_midnight orders_export)
     = ["export_orders_2024-01-02.csv"].
Proof.
  assert (Ht : TimeFromYear 0 <= after_midnight < TimeFromYear 10000)
    by (vm_compute; split; [discriminate|reflexivity]).
  split; [exact Ht|].
  destruct (export_name_is_dated_at_response before_midnight after_midnight
              orders_export Ht) as [H _].
  rewrite H. vm_compute. reflexivity.
Defined.

(** ** getTimeAgo *)

Lemma last5_app (a t : string) :
  String.length t = 5%nat -> last5 (a +:+ t) = t.
Proof.
  intros Ht. unfold last5. rewrite string_app_length, Ht.
  replace (String.length a + 5 - 5)%nat with (String.length a) by lia.
  rewrite substring_skip_app. rewrite <- Ht. apply substring_all.
Qed.

Lemma last5_just_now : last5 "just now" = "t now".
Proof. reflexivity. Qed.

Lemma last5_minutes x : last5 (x +:+ "m ago") = "m ago".
Proof. by apply last5_app. Qed.

Lemma last5_hours x : last5 (x +:+ "h ago") = "h ago".
Proof. by apply last5_app. Qed.

Lemma last5_days x : last5 (x +:+ "d ago") = "d ago".
Proof. by apply last5_app. Qed.

Lemma last5_months x : last5 (x +:+ "mo ago") = "o ago".
Proof.
  change "mo ago" with ("m" +:+ "o ago"). rewrite <- string_app_assoc.
  by apply last5_app.
Qed.

Lemma last5_years x : last5 (x +:+ "y ago") = "y ago".
Proof. by apply last5_app. Qed.

Ltac other_format H :=
  apply (f_equal last5) in H;
  rewrite ?last5_just_now, ?last5_minutes, ?last5_hours, ?last5_days,
    ?last5_months, ?last5_years in H;
  discriminate H.

Ltac formats_case :=
  repeat split; intros; try lia; try reflexivity; try (exfalso; lia);
  match goal with
  | H : @eq string _ _ |- _ => other_format H
  end.

(** C10: for a timestamp that is not in the future, with [d] the elapsed
    whole seconds, [m = d / 60], [h = m / 60], [k = h / 24],
    [mo = k / 30] and [y = mo / 12] (all rounded down), [getTimeAgo]
    returns "just now" iff [d < 60]; "<m>m ago" iff [60 <= d] and
    [m < 60]; "<h>h ago" iff the earlier cases fail and [h < 24];
    "<k>d ago" iff the earlier cases fail and [k < 30]; "<mo>mo ago" iff
    the earlier cases fail and [mo < 12]; and "<y>y ago" otherwise. *)
Theorem getTimeAgo_formats (now date : Z) :
  date <= now ->
  let d := (now - date) / 1000 in
  let m := d / 60 in
  let h := m / 60 in
  let k := h / 24 in
  let mo := k / 30 in
  let y := mo / 12 in
  let result := getTimeAgo now (Some date) in
  0 <= d
  /\ (result = "just now" <-> d < 60)
  /\ (result = num_to_string m +:+ "m ago" <-> 60 <= d /\ m < 60)
  /\ (result = num_to_string h +:+ "h ago" <-> 60 <= m /\ h < 24)
  /\ (result = num_to_string k +:+ "d ago" <-> 24 <= h /\ k < 30)
  /\ (result = num_to_string mo +:+ "mo ago" <-> 30 <= k /\ mo < 12)
  /\ (result = num_to_string y +:+ "y ago" <-> 12 <= mo).
Proof.
  intros Hpast d m h k mo y result.
  split; [subst d; apply Z.div_pos; lia|].
  subst result. unfold getTimeAgo. fold d. fold m. fold h. fold k. fold mo. fold y.
  assert (Em : 60 * m <= d < 60 * m + 60)
    by (subst m; Z.to_euclidean_division_equations; lia).
  assert (Eh : 60 * h <= m < 60 * h + 60)
    by (subst h; Z.to_euclidean_division_equations; lia).
  assert (Ek : 24 * k <= h < 24 * k + 24)
    by (subst k; Z.to_euclidean_division_equations; lia).
  assert (Emo : 30 * mo <= k < 30 * mo + 30)
    by (subst mo; Z.to_euclidean_division_equations; lia).
  clearbody d m h k mo y.
  destruct (Z.ltb_spec d 60) as [Hd|Hd].
  { formats_case. }
  destruct (Z.ltb_spec m 60) as [Hm'|Hm'].
  { formats_case. }
  destruct (Z.ltb_spec h 24) as [Hh|Hh].
  { formats_case. }
  destruct (Z.ltb_spec k 30) as [Hk|Hk].
  { formats_case. }
  destruct (Z.ltb_spec mo 12) as [Hmo|Hmo].
  { formats_case. }
  formats_case.
Qed.

(** An instance: a timestamp one hour old. *)
Lemma getTimeAgo_formats_witness :
  1700000000000 <= 1700003600000
  /\ getTimeAgo 1700003600000 (Some 1700000000000) = "1h ago".
Proof.
  assert (Hpast : 1700000000000 <= 1700003600000) by lia.
  split; [exact Hpast|].
  destruct (getTimeAgo_formats 1700003600000 1700000000000 Hpast)
    as (_ & _ & _ & Hh & _).
  apply Hh. vm_compute. split; [discriminate|reflexivity].
Defined.

Example getTimeAgo_invalid_date (now : Z) : getTimeAgo now None = "NaNy ago".
Proof. reflexivity. Qed.

(** * Further properties *)

(** ** Toasts *)

Lemma run_session_snoc calls c dom :
  run_session (calls ++ [c]) dom = run_call (run_session calls dom) c.
Proof. unfold run_session. by rewrite fold_left_app. Qed.

(** X1: toasts are displayed in the order they were requested.  For
    calls with plain-text titles and messages, at pairwise distinct clock
    readings whose ids no toast of the container carries, and with no
    toast dismissed meanwhile, the container holds after the calls what
    it held before followed by one toast per call, in call order, each
    with the title, message and severity of its call, and each shown. *)
Theorem session_log_in_call_order (calls : list call) (dom : toast_dom) :
  Forall (fun c => plain_text (call_title c) = true
                   /\ plain_text (ToString (call_message c)) = true) calls ->
  NoDup (map call_now calls) ->
  Forall (fun c => toastId (call_now c) ∉ map toast_id (container dom)) calls ->
  container (run_session calls dom)
  = container dom
      ++ map (fun c => {| toast_id := toastId (call_now c);
                          toast_title := call_title c;
                          toast_message := ToString (call_message c);
                          toast_type := call_type c;
                          toast_shown := true |}) calls.
Proof.
  intros _. induction calls as [|c calls IH] using rev_ind; intros Hclock Hfresh.
  - simpl. by rewrite app_nil_r.
  - rewrite map_app in Hclock. apply NoDup_app in Hclock as (Hclock & Hc & _).
    apply Forall_app in Hfresh as [Hfresh Hcf].
    apply Forall_inv in Hcf. simpl in Hcf.
    rewrite run_session_snoc. unfold run_call at 1. unfold showToast. simpl.
    rewrite show_first_fresh; [|rewrite (IH Hclock Hfresh)|reflexivity].
    + rewrite (IH Hclock Hfresh), map_app, <- app_assoc. reflexivity.
    + rewrite map_app, map_map. simpl. intros Hin.
      apply elem_of_app in Hin as [Hin|Hin]; [by apply Hcf|].
      apply list_elem_of_fmap in Hin as (c' & Heq & Hin).
      apply toastId_inj in Heq.
      apply (Hc (call_now c')).
      * apply list_elem_of_fmap. by exists c'.
      * rewrite <- Heq. simpl. apply elem_of_cons. by left.
Qed.

(** An instance: two toasts, one and two milliseconds after the toast
    that is still displayed. *)
Lemma session_log_in_call_order_witness :
  Forall (fun c => plain_text (call_title c) = true
                   /\ plain_text (ToString (call_message c)) = true)
    [info_at 1700000000001; done_at 1700000000002]
  /\ NoDup (map call_now [info_at 1700000000001; done_at 1700000000002])
  /\ Forall (fun c => toastId (call_now c) ∉ map toast_id (container one_toast))
       [info_at 1700000000001; done_at 1700000000002]
  /\ map (fun t => (toast_title t, toast_shown t))
       (container
          (run_session [info_at 1700000000001; done_at 1700000000002] one_toast))
     = [("Info", true); ("Info", true); ("Success", true)].
Proof.
  assert (H1 : Forall (fun c => plain_text (call_title c) = true
                               /\ plain_text (ToString (call_message c)) = true)
                 [info_at 1700000000001; done_at 1700000000002]).
  { repeat constructor. }
  assert (H2 : NoDup (map call_now [info_at 1700000000001; done_at 1700000000002])).
  { apply (bool_decide_unpack _). vm_compute. exact I. }
  assert (H3 : Forall (fun c => toastId (call_now c)
                               ∉ map toast_id (container one_toast))
                 [info_at 1700000000001; done_at 1700000000002]).
  { repeat constructor; apply (bool_decide_unpack _); vm_compute; exact I. }
  split; [exact H1|]. split; [exact H2|]. split; [exact H3|].
  rewrite (session_log_in_call_order _ _ H1 H2 H3). vm_compute. reflexivity.
Defined.

(** X2: a toast with plain-text title and message, requested at a clock
    reading whose id no toast of the container carries, is appended and
    shown, and the toasts already there are left as they were. *)
Theorem fresh_toast_is_shown (title : string) (message : jsval) (type : string)
    (now : Z) (dom : toast_dom) :
  plain_text title = true ->
  plain_text (ToString message) = true ->
  toastId now ∉ map toast_id (container dom) ->
  container (showToast title message type now dom)
  = container dom
      ++ [{| toast_id := toastId now; toast_title := title;
             toast_message := ToString message; toast_type := type;
             toast_shown := true |}].
Proof.
  intros _ _ Hfresh. unfold showToast. simpl.
  rewrite show_first_fresh; [reflexivity|exact Hfresh|reflexivity].
Qed.

(** An instance: a toast a millisecond after the one that is still
    displayed. *)
Lemma fresh_toast_is_shown_witness :
  plain_text "Success" = true
  /\ plain_text (ToString (VString "Export completed successfully")) = true
  /\ (toastId 1700000000001 ∉ map toast_id (container one_toast))
  /\ container
       (showToast "Success" (VString "Export completed successfully") "success"
          1700000000001 one_toast)
     = container one_toast
         ++ [{| toast_id := "toast-1700000000001"; toast_title := "Success";
                toast_message := "Export completed successfully";
                toast_type := "success"; toast_shown := true |}].
Proof.
  assert (H1 : plain_text "Success" = true) by reflexivity.
  assert (H2 : plain_text (ToString (VString "Export completed successfully")) = true)
    by reflexivity.
  assert (H3 : toastId 1700000000001 ∉ map toast_id (container one_toast)).
  { apply (bool_decide_unpack _). vm_compute. exact I. }
  split; [exact H1|]. split; [exact H2|]. split; [exact H3|].
  rewrite (fresh_toast_is_shown "Success" (VString "Export completed successfully")
             "success" 1700000000001 one_toast H1 H2 H3).
  vm_compute. reflexivity.
Defined.

(** X3: a toast requested at a clock reading whose id a toast of the
    container already carries is appended but not shown: [show] goes to
    the first toast carrying the id. *)
Theorem duplicate_toast_is_not_shown (title : string) (message : jsval)
    (type : string) (now : Z) (dom : toast_dom) :
  toastId now ∈ map toast_id (container dom) ->
  container (showToast title message type now dom)
  = show_first (toastId now) (container dom)
      ++ [{| toast_id := toastId now; toast_title := title;
             toast_message := ToString message; toast_type := type;
             toast_shown := false |}].
Proof.
  intros Htaken. unfold showToast. simpl. by rewrite show_first_taken.
Qed.

(** An instance: a second toast in the millisecond of the first. *)
Lemma duplicate_toast_is_not_shown_witness :
  toastId 1700000000000
  ∈ map toast_id (container (run_call no_toasts (info_at 1700000000000)))
  /\ map toast_shown
       (container
          (showToast "Success" (VString "Export completed successfully") "success"
             1700000000000 (run_call no_toasts (info_at 1700000000000))))
     = [true; false].
Proof.
  assert (H : toastId 1700000000000
              ∈ map toast_id (container (run_call no_toasts (info_at 1700000000000)))).
  { unfold run_call. rewrite showToast_ids. simpl. set_solver. }
  split; [exact H|].
  rewrite (duplicate_toast_is_not_shown "Success"
             (VString "Export completed successfully") "success" 1700000000000
             (run_call no_toasts (info_at 1700000000000)) H).
  vm_compute. reflexivity.
Defined.

(** X4: showing a toast with plain-text title and message and a fresh id,
    and removing it once it has hidden, leaves the toasts of the
    container as they were before. *)
Theorem show_then_hidden (title : string) (message : jsval) (type : string)
    (now : Z) (dom : toast_dom) :
  plain_text title = true ->
  plain_text (ToString message) = true ->
  toastId now ∉ map toast_id (container dom) ->
  container (hidden (toastId now) (showToast title message type now dom))
  = container dom.
Proof.
  intros _ _ Hfresh. unfold hidden. simpl.
  rewrite show_first_fresh; [|exact Hfresh|reflexivity].
  by apply remove_first_fresh.
Qed.

(** An instance: a toast shown and hidden while an earlier one stays. *)
Lemma show_then_hidden_witness :
  plain_text "Success" = true
  /\ plain_text (ToString (VString "Export completed successfully")) = true
  /\ (toastId 1700000000001 ∉ map toast_id (container one_toast))
  /\ map toast_id
       (container
          (hidden (toastId 1700000000001)
             (showToast "Success" (VString "Export completed successfully")
                "success" 1700000000001 one_toast)))
     = ["toast-1700000000000"].
Proof.
  assert (H1 : plain_text "Success" = true) by reflexivity.
  assert (H2 : plain_text (ToString (VString "Export completed successfully")) = true)
    by reflexivity.
  assert (H3 : toastId 1700000000001 ∉ map toast_id (container one_toast)).
  { apply (bool_decide_unpack _). vm_compute. exact I. }
  split; [exact H1|]. split; [exact H2|]. split; [exact H3|].
  rewrite (show_then_hidden "Success" (VString "Export completed successfully")
             "success" 1700000000001 one_toast H1 H2 H3).
  vm_compute. reflexivity.
Defined.

(** ** Class lists *)

Lemma removeClass_keeps names cls c :
  c ∈ cls -> c ∉ names -> c ∈ removeClass names cls.
Proof. intros Hin Hout. unfold removeClass. by apply list_elem_of_filter. Qed.

Lemma addClass_keeps name cls c : c ∈ cls -> c ∈ addClass name cls.
Proof.
  intros Hin. unfold addClass. case_decide; [exact Hin|].
  apply elem_of_app. by left.
Qed.

Lemma removeClass_NoDup names cls : NoDup cls -> NoDup (removeClass names cls).
Proof. intros H. unfold removeClass. by apply NoDup_filter. Qed.

Lemma addClass_NoDup name cls : NoDup cls -> NoDup (addClass name cls).
Proof.
  intros H. unfold addClass. case_decide as Hin; [exact H|].
  apply NoDup_app. split; [exact H|]. split; [|apply NoDup_singleton].
  intros x Hx Hx'. apply list_elem_of_singleton in Hx'. by subst.
Qed.

Lemma status_completion_classes rq result now p :
  UpdateStatus.badge_classes (UpdateStatus.complete rq result now p)
  = match result with
    | Success r =>
        if UpdateStatus.success r
        then addClass (UpdateStatus.badgeClass (UpdateStatus.new_status r))
               (removeClass (map snd UpdateStatus.status_colors)
                  (UpdateStatus.badge_classes p))
        else UpdateStatus.badge_classes p
    | Error _ => UpdateStatus.badge_classes p
    end.
Proof.
  unfold UpdateStatus.complete.
  destruct (callbackContext (UpdateStatus.context rq)), result as [r|e];
    try reflexivity;
    unfold UpdateStatus.on_success; destruct (UpdateStatus.success r); reflexivity.
Qed.

(** ** Update order status, further *)

(** X5: no completion of a status update takes a class other than the
    five enumerated colours off the badge; in particular the default
    colour [bg-secondary], once on the badge, stays on it. *)
Theorem badge_keeps_other_classes rq (result : ajax_result UpdateStatus.response)
    (now : Z) (p : UpdateStatus.page) (c : string) :
  c ∈ UpdateStatus.badge_classes p ->
  c ∉ map snd UpdateStatus.status_colors ->
  c ∈ UpdateStatus.badge_classes (UpdateStatus.complete rq result now p).
Proof.
  intros Hin Hout. rewrite status_completion_classes.
  destruct result as [r|e]; [|exact Hin].
  destruct (UpdateStatus.success r); [|exact Hin].
  apply addClass_keeps. by apply removeClass_keeps.
Qed.

(** An instance: a badge showing the default colour, then "delivered". *)
Lemma badge_keeps_other_classes_witness :
  ("bg-secondary" ∈ ["badge"; "bg-secondary"])
  /\ ("bg-secondary" ∉ map snd UpdateStatus.status_colors)
  /\ ("bg-secondary"
      ∈ UpdateStatus.badge_classes
          (UpdateStatus.interaction "delivered"
             (Success {| UpdateStatus.success := true;
                         UpdateStatus.new_status := "delivered";
                         UpdateStatus.message := VUndefined |})
             1700000000000
             (UpdateStatus.set_badge ["badge"; "bg-secondary"] "RETURNED"
                pending_order))).
Proof.
  assert (H1 : "bg-secondary" ∈ ["badge"; "bg-secondary"]).
  { apply elem_of_cons. right. apply elem_of_cons. by left. }
  assert (H2 : "bg-secondary" ∉ map snd UpdateStatus.status_colors).
  { apply (bool_decide_unpack _). vm_compute. exact I. }
  split; [exact H1|]. split; [exact H2|].
  unfold UpdateStatus.interaction, UpdateStatus.on_change.
  apply badge_keeps_other_classes; [exact H1|exact H2].
Defined.

(** X6: a badge whose class list has no duplicate has none after any
    completion of a status update. *)
Theorem badge_classes_stay_distinct rq (result : ajax_result UpdateStatus.response)
    (now : Z) (p : UpdateStatus.page) :
  NoDup (UpdateStatus.badge_classes p) ->
  NoDup (UpdateStatus.badge_classes (UpdateStatus.complete rq result now p)).
Proof.
  intros H. rewrite status_completion_classes.
  destruct result as [r|e]; [|exact H].
  destruct (UpdateStatus.success r); [|exact H].
  by apply addClass_NoDup, removeClass_NoDup.
Qed.

(** An instance: the pending order, acknowledged as delivered. *)
Lemma badge_classes_stay_distinct_witness :
  NoDup (UpdateStatus.badge_classes pending_order)
  /\ NoDup
       (UpdateStatus.badge_classes
          (UpdateStatus.interaction "delivered"
             (Success {| UpdateStatus.success := true;
                         UpdateStatus.new_status := "delivered";
                         UpdateStatus.message := VUndefined |})
             1700000000000 pending_order)).
Proof.
  assert (H : NoDup (UpdateStatus.badge_classes pending_order)).
  { apply (bool_decide_unpack _). vm_compute. exact I. }
  split; [exact H|].
  unfold UpdateStatus.interaction, UpdateStatus.on_change.
  apply badge_classes_stay_distinct. exact H.
Defined.

(** X7: when the user changes the select again while a request is still
    pending, the second request captures the spinner's text as the
    original label; if it then fails in transport, the label is "restored"
    to " Updating..." without the spinner, whatever the first request did
    to the label before. *)
Theorem overlapping_update_restores_spinner_text (v1 v2 : string)
    (first : ajax_result UpdateStatus.response) (error : string)
    (now1 now2 : Z) (p : UpdateStatus.page) :
  let '(p1, rq1) := UpdateStatus.on_change (UpdateStatus.user_select v1 p) in
  let '(p2, rq2) := UpdateStatus.on_change (UpdateStatus.user_select v2 p1) in
  let p3 := UpdateStatus.complete rq1 first now1 p2 in
  let p4 := UpdateStatus.complete rq2 (Error error) now2 p3 in
  UpdateStatus.originalStatus rq1 = UpdateStatus.label_text (UpdateStatus.status_text p)
  /\ UpdateStatus.originalStatus rq2 = " Updating..."
  /\ UpdateStatus.status_text p4 = UpdateStatus.text " Updating...".
Proof.
  simpl. repeat split; reflexivity.
Qed.

Lemma toUpperCase_chars (s : string) :
  toUpperCase s
  = string_of_list_ascii
      (map (fun c =>
              if (Nat.leb 97 (nat_of_ascii c) && Nat.leb (nat_of_ascii c) 122)%bool
              then ascii_of_nat (nat_of_ascii c - 32) else c)
         (list_ascii_of_string s)).
Proof. induction s as [|c s IH]; simpl; [reflexivity|by rewrite IH]. Qed.

(** X8: after a status update that the server acknowledges with an ASCII
    status, the label and the badge both read that status with its
    letters [a] to [z] (codes 97 to 122) replaced by [A] to [Z] (32
    less) and its other characters kept, and the spinner is gone,
    whatever value the user had picked; the select keeps the value the
    user picked.  The five statuses read PENDING, PROCESSING, CONFIRMED,
    DELIVERED and CANCELLED. *)
Theorem acknowledged_status_is_displayed (v s : string) (m : jsval) (now : Z)
    (p : UpdateStatus.page) :
  ascii_only s = true ->
  let p' :=
    UpdateStatus.interaction v
      (Success {| UpdateStatus.success := true; UpdateStatus.new_status := s;
                  UpdateStatus.message := m |}) now p in
  let upper :=
    string_of_list_ascii
      (map (fun c =>
              if (Nat.leb 97 (nat_of_ascii c) && Nat.leb (nat_of_ascii c) 122)%bool
              then ascii_of_nat (nat_of_ascii c - 32) else c)
         (list_ascii_of_string s)) in
  UpdateStatus.status_text p'
  = {| UpdateStatus.label_spinner := false; UpdateStatus.label_text := upper |}
  /\ UpdateStatus.badge_text p' = upper
  /\ UpdateStatus.select_value p' = v
  /\ map toUpperCase order_statuses
     = ["PENDING"; "PROCESSING"; "CONFIRMED"; "DELIVERED"; "CANCELLED"].
Proof.
  intros _ p' upper. subst upper. rewrite <- toUpperCase_chars.
  repeat split; reflexivity.
Qed.

(** An instance: the pending order, acknowledged as delivered. *)
Lemma acknowledged_status_is_displayed_witness :
  ascii_only "delivered" = true
  /\ UpdateStatus.status_text
       (UpdateStatus.interaction "delivered"
          (Success {| UpdateStatus.success := true;
                      UpdateStatus.new_status := "delivered";
                      UpdateStatus.message := VUndefined |})
          1700000000000 pending_order)
     = {| UpdateStatus.label_spinner := false;
          UpdateStatus.label_text := "DELIVERED" |}.
Proof.
  assert (H : ascii_only "delivered" = true) by reflexivity.
  split; [exact H|].
  destruct (acknowledged_status_is_displayed "delivered" "delivered" VUndefined
              1700000000000 pending_order H) as [Hlabel _].
  rewrite Hlabel. reflexivity.
Defined.

(** ** Notifications of completed requests *)

(** X9: a completion of a state-changing request whose spliced text is
    plain (the message of a rejection, the error text of a transport
    failure), and likewise of an export, adds exactly one toast: of
    severity [success] when the server answered with [success] true (for
    an export, when the request succeeded) and of severity [danger]
    otherwise.  Responses are taken as the interface has them: an
    acknowledged status update carries its [new_status]. *)
Theorem completion_notifies_once (now date : Z) (error : string)
    (rq_s : UpdateStatus.request) (result_s : ajax_result UpdateStatus.response)
    (p_s : UpdateStatus.page)
    (rq_a : ToggleActive.request) (result_a : ajax_result ToggleActive.response)
    (p_a : ToggleActive.page)
    (rq_r : ToggleApproval.request) (result_r : ajax_result ToggleApproval.response)
    (p_r : ToggleApproval.page)
    (rq_e : ExportData.request) (p_e : ExportData.page) :
  spliced_plain UpdateStatus.success UpdateStatus.message result_s = true ->
  spliced_plain ToggleActive.success ToggleActive.message result_a = true ->
  spliced_plain ToggleApproval.success ToggleApproval.message result_r = true ->
  plain_text error = true ->
  (exists title message,
     toast_log (UpdateStatus.toasts (UpdateStatus.complete rq_s result_s now p_s))
     = toast_log (UpdateStatus.toasts p_s)
         ++ [(title, message, severity UpdateStatus.success result_s)])
  /\ (exists title message,
        toast_log (ToggleActive.toasts (ToggleActive.complete rq_a result_a now p_a))
        = toast_log (ToggleActive.toasts p_a)
            ++ [(title, message, severity ToggleActive.success result_a)])
  /\ (exists title message,
        toast_log
          (ToggleApproval.toasts (ToggleApproval.complete rq_r result_r now p_r))
        = toast_log (ToggleApproval.toasts p_r)
            ++ [(title, message, severity ToggleApproval.success result_r)])
  /\ (exists title message,
        toast_log (ExportData.toasts (ExportData.on_success rq_e date now p_e))
        = toast_log (ExportData.toasts p_e) ++ [(title, message, "success")])
  /\ (exists title message,
        toast_log (ExportData.toasts (ExportData.on_error rq_e error now p_e))
        = toast_log (ExportData.toasts p_e) ++ [(title, message, "danger")]).
Proof.
  intros _ _ _ _. repeat split.
  - unfold UpdateStatus.complete.
    destruct (callbackContext (UpdateStatus.context rq_s)), result_s as [r|e]; simpl;
      try (unfold UpdateStatus.on_success; destruct (UpdateStatus.success r); simpl);
      eexists _, _; apply showToast_log.
  - unfold ToggleActive.complete.
    destruct (callbackContext (ToggleActive.context rq_a)), result_a as [r|e]; simpl;
      try (unfold ToggleActive.on_success; destruct (ToggleActive.success r); simpl);
      eexists _, _; apply showToast_log.
  - unfold ToggleApproval.complete.
    destruct (callbackContext (ToggleApproval.context rq_r)), result_r as [r|e]; simpl;
      try (unfold ToggleApproval.on_success; destruct (ToggleApproval.success r); simpl);
      eexists _, _; apply showToast_log.
  - eexists _, _. unfold ExportData.on_success. simpl. apply showToast_log.
  - eexists _, _. unfold ExportData.on_error. simpl. apply showToast_log.
Qed.

(** An instance: a rejected status update, a failed and an acknowledged
    toggle, and a failed export, each on a page that displays a toast. *)
Lemma completion_notifies_once_witness :
  spliced_plain UpdateStatus.success UpdateStatus.message (Success locked) = true
  /\ spliced_plain ToggleActive.success ToggleActive.message (Error "timeout") = true
  /\ spliced_plain ToggleApproval.success ToggleApproval.message
       (Success {| ToggleApproval.success := true;
                   ToggleApproval.message := VUndefined |}) = true
  /\ plain_text "Not Found" = true
  /\ (exists title message,
        toast_log
          (UpdateStatus.toasts
             (UpdateStatus.interaction "delivered" (Success locked) 1700000000001
                (UpdateStatus.set_toasts one_toast pending_order)))
        = [("Info", "Preparing export...", "info"); (title, message, "danger")]).
Proof.
  assert (H1 : spliced_plain UpdateStatus.success UpdateStatus.message
                 (Success locked) = true) by reflexivity.
  assert (H2 : spliced_plain ToggleActive.success ToggleActive.message
                 (Error "timeout") = true) by reflexivity.
  assert (H3 : spliced_plain ToggleApproval.success ToggleApproval.message
                 (Success {| ToggleApproval.success := true;
                             ToggleApproval.message := VUndefined |}) = true)
    by reflexivity.
  assert (H4 : plain_text "Not Found" = true) by reflexivity.
  split; [exact H1|]. split; [exact H2|]. split; [exact H3|]. split; [exact H4|].
  destruct (completion_notifies_once 1700000000001 1700000000001 "Not Found"
              (snd (UpdateStatus.on_change
                      (UpdateStatus.user_select "delivered"
                         (UpdateStatus.set_toasts one_toast pending_order))))
              (Success locked)
              (fst (UpdateStatus.on_change
                      (UpdateStatus.user_select "delivered"
                         (UpdateStatus.set_toasts one_toast pending_order))))
              (snd (ToggleActive.on_change (ToggleActive.user_toggle inactive_user)))
              (Error "timeout")
              (fst (ToggleActive.on_change (ToggleActive.user_toggle inactive_user)))
              (snd (ToggleApproval.on_change
                      (ToggleApproval.user_toggle pending_review)))
              (Success {| ToggleApproval.success := true;
                          ToggleApproval.message := VUndefined |})
              (fst (ToggleApproval.on_change
                      (ToggleApproval.user_toggle pending_review)))
              (snd (ExportData.on_click 1700000000000 orders_export))
              orders_export H1 H2 H3 H4)
    as ((title & message & Hlog) & _).
  exists title, message. exact Hlog.
Defined.

Lemma removeClass_not_elem names cls c : c ∈ names -> c ∉ removeClass names cls.
Proof.
  intros Hin H. unfold removeClass in H.
  apply list_elem_of_filter in H as [Hout _]. contradiction.
Qed.

Lemma addClass_other name cls c : c ≠ name -> c ∉ cls -> c ∉ addClass name cls.
Proof.
  intros Hne Hout. unfold addClass. case_decide as Hd; [exact Hout|].
  intros H. apply elem_of_app in H as [H|H]; [contradiction|].
  apply list_elem_of_singleton in H. contradiction.
Qed.

(** ** Boolean toggles, further *)

(** X10: after a toggle of the user-active checkbox that the server
    acknowledges, checkbox and badge agree: the badge reads "Active" and
    carries [bg-success] but not [bg-danger] when the box is checked, and
    reads "Inactive" and carries [bg-danger] but not [bg-success] when it
    is not; a second acknowledged toggle brings the checkbox back. *)
Theorem acknowledged_active_toggle (m m' : jsval) (now now' : Z)
    (p : ToggleActive.page) :
  let ok := fun m => Success {| ToggleActive.success := true;
                                ToggleActive.message := m |} in
  let p' := ToggleActive.interaction (ok m) now p in
  let p'' := ToggleActive.interaction (ok m') now' p' in
  ToggleActive.checked p' = negb (ToggleActive.checked p)
  /\ ToggleActive.badge_text p'
     = (if ToggleActive.checked p' then "Active" else "Inactive")
  /\ ((if ToggleActive.checked p' then "bg-success" else "bg-danger")
     ∈ ToggleActive.badge_classes p')
  /\ ((if ToggleActive.checked p' then "bg-danger" else "bg-success")
     ∉ ToggleActive.badge_classes p')
  /\ ToggleActive.checked p'' = ToggleActive.checked p
  /\ ToggleActive.badge_text p''
     = (if ToggleActive.checked p then "Active" else "Inactive").
Proof.
  intros ok p' p''.
  assert (Hc : ToggleActive.checked p' = negb (ToggleActive.checked p)) by reflexivity.
  assert (Hc' : ToggleActive.checked p'' = negb (ToggleActive.checked p')) by reflexivity.
  split; [exact Hc|]. split; [by rewrite Hc|]. split.
  { rewrite Hc. subst p'. unfold ToggleActive.interaction. simpl.
    destruct (ToggleActive.checked p); simpl; apply addClass_elem. }
  split.
  { rewrite Hc. subst p'. unfold ToggleActive.interaction. simpl.
    destruct (ToggleActive.checked p); simpl;
      (apply addClass_other; [discriminate|apply removeClass_not_elem]);
      set_solver. }
  split; [rewrite Hc', Hc; apply negb_involutive|].
  change (ToggleActive.badge_text p'')
    with (if negb (ToggleActive.checked p') then "Active" else "Inactive").
  rewrite Hc, negb_involutive. reflexivity.
Qed.

(** X11: after a toggle of the review-approval checkbox that the server
    acknowledges, checkbox and badge agree: the badge reads "Approved"
    and carries [bg-success] but not [bg-warning] when the box is
    checked, and reads "Pending" and carries [bg-warning] but not
    [bg-success] when it is not; a second acknowledged toggle brings the
    checkbox back. *)
Theorem acknowledged_approval_toggle (m m' : jsval) (now now' : Z)
    (p : ToggleApproval.page) :
  let ok := fun m => Success {| ToggleApproval.success := true;
                                ToggleApproval.message := m |} in
  let p' := ToggleApproval.interaction (ok m) now p in
  let p'' := ToggleApproval.interaction (ok m') now' p' in
  ToggleApproval.checked p' = negb (ToggleApproval.checked p)
  /\ ToggleApproval.badge_text p'
     = (if ToggleApproval.checked p' then "Approved" else "Pending")
  /\ ((if ToggleApproval.checked p' then "bg-success" else "bg-warning")
     ∈ ToggleApproval.badge_classes p')
  /\ ((if ToggleApproval.checked p' then "bg-warning" else "bg-success")
     ∉ ToggleApproval.badge_classes p')
  /\ ToggleApproval.checked p'' = ToggleApproval.checked p
  /\ ToggleApproval.badge_text p''
     = (if ToggleApproval.checked p then "Approved" else "Pending").
Proof.
  intros ok p' p''.
  assert (Hc : ToggleApproval.checked p' = negb (ToggleApproval.checked p))
    by reflexivity.
  assert (Hc' : ToggleApproval.checked p'' = negb (ToggleApproval.checked p'))
    by reflexivity.
  split; [exact Hc|]. split; [by rewrite Hc|]. split.
  { rewrite Hc. subst p'. unfold ToggleApproval.interaction. simpl.
    destruct (ToggleApproval.checked p); simpl; apply addClass_elem. }
  split.
  { rewrite Hc. subst p'. unfold ToggleApproval.interaction. simpl.
    destruct (ToggleApproval.checked p); simpl;
      (apply addClass_other; [discriminate|apply removeClass_not_elem]);
      set_solver. }
  split; [rewrite Hc', Hc; apply negb_involutive|].
  change (ToggleApproval.badge_text p'')
    with (if negb (ToggleApproval.checked p') then "Approved" else "Pending").
  rewrite Hc, negb_involutive. reflexivity.
Qed.

(** ** Statistics refresh, further *)

Section StatsTicks.

Variable number : Type.
Variables String_of toLocaleString_en_IN toFixed_2 : number -> string.

Let run := Stats.run_ticks String_of toLocaleString_en_IN toFixed_2.
Let display := Stats.updateStatsDisplay String_of toLocaleString_en_IN toFixed_2.
Let tick := Stats.updateDashboardStats String_of toLocaleString_en_IN toFixed_2.

Let shown (acc : option (Stats.stats number)) (p : Stats.page) : Stats.page :=
  match acc with
  | Some s => display s p
  | None => p
  end.

Lemma tick_after_shown acc r p :
  tick r (shown acc p)
  = shown
      (match r with
       | Success response =>
           if Stats.success response then Some (Stats.response_stats response)
           else acc
       | Error _ => acc
       end) p.
Proof.
  destruct r as [response|e]; [|reflexivity]. simpl.
  destruct (Stats.success response); [|reflexivity].
  destruct acc; reflexivity.
Qed.

Lemma run_after_shown results : forall acc p,
  run results (shown acc p)
  = shown
      (fold_left
         (fun acc r =>
            match r with
            | Success response =>
                if Stats.success response then Some (Stats.response_stats response)
                else acc
            | Error _ => acc
            end) results acc) p.
Proof.
  induction results as [|r results IH]; intros acc p; [reflexivity|].
  unfold run, Stats.run_ticks in *. simpl.
  fold (tick r (shown acc p)). rewrite tick_after_shown. apply IH.
Qed.

(** X12: the last success wins.  After any ticks, a tick that succeeds
    with four Numbers, and any run of failed ticks after it, the four
    slots show that tick's statistics: the order count and the new
    customers printed as they are, the revenue after "₹" in the en-IN
    format, and the average order value after "₹" with two decimals. *)
Theorem stats_show_last_success
    (before : list (ajax_result (Stats.response number)))
    (s : Stats.stats number) (m : jsval)
    (fs : list (Stats.failed_tick number)) (p : Stats.page) :
  let p' :=
    run (before
           ++ Success {| Stats.success := true; Stats.response_stats := s;
                         Stats.message := m |}
           :: map Stats.result_of_failure fs) p in
  Stats.stat_orders p' = String_of (Stats.order_count s)
  /\ Stats.stat_revenue p' = "₹" +:+ toLocaleString_en_IN (Stats.revenue s)
  /\ Stats.stat_avg_order p' = "₹" +:+ toFixed_2 (Stats.avg_order_value s)
  /\ Stats.stat_customers p' = String_of (Stats.new_customers s).
Proof.
  intros p'. subst p'.
  assert (Happ : forall a b q, run (a ++ b) q = run b (run a q))
    by (intros; unfold run, Stats.run_ticks; apply fold_left_app).
  rewrite Happ. set (q := run before p).
  change (run (Success {| Stats.success := true; Stats.response_stats := s;
                          Stats.message := m |}
               :: map Stats.result_of_failure fs) q)
    with (run (map Stats.result_of_failure fs)
            (Stats.updateStatsDisplay String_of toLocaleString_en_IN toFixed_2 s q)).
  unfold run. rewrite failed_ticks_change_nothing.
  repeat split; reflexivity.
Qed.

(** X13: no tick of the refresh, successful or not, adds, removes or
    shows a toast. *)
Theorem stats_ticks_never_notify
    (results : list (ajax_result (Stats.response number))) (p : Stats.page) :
  Stats.toasts (run results p) = Stats.toasts p.
Proof.
  rewrite (run_after_shown results None p : run results p = _).
  unfold shown. destruct (fold_left _ results None); reflexivity.
Qed.

End StatsTicks.

(** ** Select all and bulk actions *)




(** ** Confirm delete *)



(** ** Theme switcher, further *)

Lemma click_is_dark now b : is_dark (Theme.on_click now b) = negb (is_dark b).
Proof.
  unfold is_dark, Theme.on_click. simpl.
  destruct (Theme.data_bs_theme b) as [t|]; [|reflexivity].
  destruct (String.eqb t "dark"); reflexivity.
Qed.

Lemma click_theme now b :
  Theme.data_bs_theme (Theme.on_click now b)
  = Some (if is_dark b then "light" else "dark").
Proof.
  unfold is_dark, Theme.on_click. simpl.
  destruct (Theme.data_bs_theme b) as [t|]; reflexivity.
Qed.

Lemma theme_clicks_snoc nows now b :
  theme_clicks (nows ++ [now]) b = Theme.on_click now (theme_clicks nows b).
Proof. unfold theme_clicks. by rewrite fold_left_app. Qed.

Lemma theme_clicks_is_dark nows : forall b,
  is_dark (theme_clicks nows b) = xorb (is_dark b) (Nat.odd (length nows)).
Proof.
  induction nows as [|now nows IH]; intros b.
  - simpl. by rewrite xorb_false_r.
  - change (theme_clicks (now :: nows) b)
      with (theme_clicks nows (Theme.on_click now b)).
    rewrite IH, click_is_dark. simpl length. rewrite Nat.odd_succ, <- Nat.negb_odd.
    destruct (is_dark b), (Nat.odd (length nows)); reflexivity.
Qed.

(** X16: after any positive number of clicks on the theme switcher the
    root's theme is "dark" or "light" by the parity of the clicks (dark
    after an odd number of clicks unless the document started dark, every
    start that is not "dark" counting as light), and the stored theme is
    the theme of the root. *)
Theorem theme_after_clicks (nows : list Z) (b : Theme.browser) :
  nows <> [] ->
  let b' := theme_clicks nows b in
  Theme.data_bs_theme b'
  = Some (if xorb (is_dark b) (Nat.odd (length nows)) then "dark" else "light")
  /\ Theme.localStorage b' !! "theme" = Theme.data_bs_theme b'.
Proof.
  intros Hne b'. subst b'.
  destruct (exists_last Hne) as (nows' & now & ->).
  rewrite theme_clicks_snoc. split; [|apply click_saves_theme].
  rewrite click_theme, theme_clicks_is_dark, length_app. simpl.
  replace (length nows' + 1)%nat with (S (length nows')) by lia.
  rewrite Nat.odd_succ, <- Nat.negb_odd.
  destruct (is_dark b), (Nat.odd (length nows')); reflexivity.
Qed.

(** An instance: three clicks on a document without theme attribute. *)
Lemma theme_after_clicks_witness :
  [1700000000000; 1700000000001; 1700000000002] <> []
  /\ Theme.data_bs_theme
       (theme_clicks [1700000000000; 1700000000001; 1700000000002] fresh_browser)
     = Some "dark".
Proof.
  assert (H : [1700000000000; 1700000000001; 1700000000002] <> []) by discriminate.
  split; [exact H|].
  destruct (theme_after_clicks _ fresh_browser H) as [Ht _]. exact Ht.
Defined.

(** X17: a click on the theme switcher writes the key [theme] of the
    storage and no other key. *)
Theorem theme_click_keeps_other_keys (now : Z) (b : Theme.browser) (k : string) :
  k <> "theme" ->
  Theme.localStorage (Theme.on_click now b) !! k = Theme.localStorage b !! k.
Proof.
  intros Hk. unfold Theme.on_click. simpl. apply lookup_insert_ne. congruence.
Qed.

(** An instance: a stored language survives a click. *)
Lemma theme_click_keeps_other_keys_witness :
  "lang" <> "theme"
  /\ Theme.localStorage
       (Theme.on_click 1700000000000
          {| Theme.data_bs_theme := None;
             Theme.localStorage := {["lang" := "en"]};
             Theme.toasts := no_toasts |}) !! "lang"
     = Some "en".
Proof.
  assert (H : "lang" <> "theme") by discriminate.
  split; [exact H|].
  rewrite (theme_click_keeps_other_keys 1700000000000 _ "lang" H). simpl.
  apply lookup_singleton_eq.
Defined.

(** X18: a page load with no stored theme, or with the empty string
    stored, leaves the root's theme attribute as the markup has it. *)
Theorem load_without_saved_theme (markup : option string)
    (storage : gmap string string) :
  storage !! "theme" = None \/ storage !! "theme" = Some "" ->
  Theme.data_bs_theme (Theme.load markup storage) = markup.
Proof.
  intros [H|H]; unfold Theme.load, Theme.check_saved_theme; simpl; rewrite H;
    reflexivity.
Qed.

(** An instance: a first visit to a page rendered dark. *)
Lemma load_without_saved_theme_witness :
  ((∅ : gmap string string) !! "theme" = None
   \/ (∅ : gmap string string) !! "theme" = Some "")
  /\ Theme.data_bs_theme (Theme.load (Some "dark") ∅) = Some "dark".
Proof.
  assert (H : (∅ : gmap string string) !! "theme" = None
              \/ (∅ : gmap string string) !! "theme" = Some "")
    by (left; apply lookup_empty).
  split; [exact H|].
  apply (load_without_saved_theme (Some "dark") ∅ H).
Defined.

(** ** getTimeAgo, further *)

Lemma div_ltb (a b c : Z) : 0 < b -> (a / b <? c) = (a <? b * c).
Proof.
  intros Hb. destruct (Z.ltb_spec (a / b) c), (Z.ltb_spec a (b * c));
    try reflexivity; exfalso; Z.to_euclidean_division_equations; nia.
Qed.

(** X19: a timestamp in the future, like one less than a minute old,
    reads "just now". *)
Theorem getTimeAgo_future (now date : Z) :
  now < date -> getTimeAgo now (Some date) = "just now".
Proof.
  intros H. unfold getTimeAgo.
  destruct (Z.ltb_spec ((now - date) / 1000) 60) as [_|Hd]; [reflexivity|].
  exfalso. Z.to_euclidean_division_equations; lia.
Qed.

(** An instance: a timestamp one hour ahead of the clock. *)
Lemma getTimeAgo_future_witness :
  1700000000000 < 1700003600000
  /\ getTimeAgo 1700000000000 (Some 1700003600000) = "just now".
Proof.
  assert (H : 1700000000000 < 1700003600000) by lia.
  split; [exact H|]. apply (getTimeAgo_future _ _ H).
Defined.

(** X20: in terms of the elapsed whole seconds [d] alone, [getTimeAgo]
    counts minutes of 60 seconds below one hour, hours of 3600 seconds
    below one day, days of 86400 seconds below 30 days, months of 30 days
    below 360 days, and years of 360 days from there on, each count
    rounded down. *)
Theorem getTimeAgo_thresholds (now date : Z) :
  let d := (now - date) / 1000 in
  getTimeAgo now (Some date)
  = if d <? 60 then "just now"
    else if d <? 3600 then num_to_string (d / 60) +:+ "m ago"
    else if d <? 86400 then num_to_string (d / 3600) +:+ "h ago"
    else if d <? 2592000 then num_to_string (d / 86400) +:+ "d ago"
    else if d <? 31104000 then num_to_string (d / 2592000) +:+ "mo ago"
    else num_to_string (d / 31104000) +:+ "y ago".
Proof.
  intros d. unfold getTimeAgo. fold d. cbv zeta.
  rewrite !Z.div_div by lia. rewrite !div_ltb by lia.
  reflexivity.
Qed.

(** X21: for a timestamp that parses, [getTimeAgo] prints "just now" or
    a count that is never zero and never fills the next unit: minutes go
    from 1 to 59, hours from 1 to 23, days from 1 to 29, months from 1 to
    11, and years start at 1.  For a text that does not parse it prints
    "NaNy ago". *)
Theorem getTimeAgo_counts (now : Z) (date : option Z) :
  let result := getTimeAgo now date in
  (date = None /\ result = "NaNy ago")
  \/ result = "just now"
  \/ (exists n, 1 <= n <= 59 /\ result = num_to_string n +:+ "m ago")
  \/ (exists n, 1 <= n <= 23 /\ result = num_to_string n +:+ "h ago")
  \/ (exists n, 1 <= n <= 29 /\ result = num_to_string n +:+ "d ago")
  \/ (exists n, 1 <= n <= 11 /\ result = num_to_string n +:+ "mo ago")
  \/ (exists n, 1 <= n /\ result = num_to_string n +:+ "y ago").
Proof.
  intros result. subst result. destruct date as [date|]; [right|by left].
  unfold getTimeAgo.
  set (d := (now - date) / 1000). set (m := d / 60). set (h := m / 60).
  set (k := h / 24). set (mo := k / 30). set (y := mo / 12).
  assert (Em : 60 * m <= d < 60 * m + 60)
    by (subst m; Z.to_euclidean_division_equations; lia).
  assert (Eh : 60 * h <= m < 60 * h + 60)
    by (subst h; Z.to_euclidean_division_equations; lia).
  assert (Ek : 24 * k <= h < 24 * k + 24)
    by (subst k; Z.to_euclidean_division_equations; lia).
  assert (Emo : 30 * mo <= k < 30 * mo + 30)
    by (subst mo; Z.to_euclidean_division_equations; lia).
  assert (Ey : 12 * y <= mo < 12 * y + 12)
    by (subst y; Z.to_euclidean_division_equations; lia).
  clearbody d m h k mo y.
  destruct (Z.ltb_spec d 60); [by left|right].
  destruct (Z.ltb_spec m 60); [left; exists m; split; [lia|reflexivity]|right].
  destruct (Z.ltb_spec h 24); [left; exists h; split; [lia|reflexivity]|right].
  destruct (Z.ltb_spec k 30); [left; exists k; split; [lia|reflexivity]|right].
  destruct (Z.ltb_spec mo 12); [left; exists mo; split; [lia|reflexivity]|right].
  exists y. split; [lia|reflexivity].
Qed.

(** ** Dates, further *)

Lemma day_of_calendar_date (t : Z) :
  Day t
  = DayFromYear (YearFromTime t)
    + days_before_month (MonthFromTime t) (InLeapYear t) + DateFromTime t - 1.
Proof.
  unfold DateFromTime, MonthFromTime.
  pose proof (DayWithinYear_range t) as Hd. pose proof (InLeapYear_range t) as Hl.
  assert (HD : Day t = DayFromYear (YearFromTime t) + DayWithinYear t)
    by (unfold DayWithinYear; lia).
  rewrite HD.
  generalize dependent (DayWithinYear t). generalize dependent (InLeapYear t).
  intros leap Hl d Hd _.
  repeat match goal with
         | |- context [Z.ltb ?a ?b] => destruct (Z.ltb_spec a b)
         end; simpl; lia.
Qed.

(** X22: year, month and date of a time value name its day: the days
    since the epoch are the days before the year, plus the days of the
    year before the month, plus the date minus one; and the date does not
    run past the month. *)
Theorem calendar_date_names_the_day (t : Z) :
  let y := YearFromTime t in
  let m := MonthFromTime t in
  let d := DateFromTime t in
  let leap := InLeapYear t in
  Day t = DayFromYear y + days_before_month m leap + d - 1
  /\ 0 <= m <= 11
  /\ 1 <= d
  /\ days_before_month m leap + d
     <= (if m =? 11 then 365 + leap else days_before_month (m + 1) leap).
Proof.
  intros y m d leap. subst y m d leap.
  unfold DateFromTime, MonthFromTime.
  pose proof (DayWithinYear_range t) as Hd. pose proof (InLeapYear_range t) as Hl.
  assert (HD : Day t = DayFromYear (YearFromTime t) + DayWithinYear t)
    by (unfold DayWithinYear; lia).
  rewrite HD.
  generalize dependent (DayWithinYear t). generalize dependent (InLeapYear t).
  intros leap Hl d Hd _.
  repeat match goal with
         | |- context [Z.ltb ?a ?b] => destruct (Z.ltb_spec a b)
         end; simpl; lia.
Qed.

(** ** Strings, further *)

Lemma string_app_inj_length (a b x y : string) :
  String.length a = String.length b -> a +:+ x = b +:+ y -> a = b /\ x = y.
Proof.
  revert b. induction a as [|c a IH]; intros [|c' b] Hlen H; try discriminate Hlen.
  - by split.
  - change (String c (a +:+ x) = String c' (b +:+ y)) in H.
    injection H as -> H. injection Hlen as Hlen.
    destruct (IH b Hlen H) as [-> ->]. by split.
Qed.

Lemma digit_inj (n n' : Z) : digit n = digit n' -> n mod 10 = n' mod 10.
Proof.
  unfold digit. intros H.
  assert (Hn : 0 <= n mod 10 < 10) by (apply Z.mod_pos_bound; lia).
  assert (Hn' : 0 <= n' mod 10 < 10) by (apply Z.mod_pos_bound; lia).
  apply (f_equal nat_of_ascii) in H.
  rewrite !nat_ascii_embedding in H by lia. lia.
Qed.

Lemma pad_inj k : forall n n',
  0 <= n < 10 ^ Z.of_nat k -> 0 <= n' < 10 ^ Z.of_nat k ->
  pad k n = pad k n' -> n = n'.
Proof.
  induction k as [|k IH]; intros n n' Hn Hn' H.
  - simpl in Hn, Hn'. lia.
  - rewrite Nat2Z.inj_succ, Z.pow_succ_r in Hn, Hn' by lia.
    simpl in H.
    apply string_app_inj_length in H as [Hhigh Hlow];
      [|by rewrite !pad_length].
    injection Hlow as Hlow. apply digit_inj in Hlow.
    apply IH in Hhigh;
      [|split; [apply Z.div_pos; lia|apply Z.div_lt_upper_bound; lia]..].
    rewrite (Z.div_mod n 10), (Z.div_mod n' 10) by lia. lia.
Qed.

Lemma substring_0_app_le (a b : string) (n : nat) :
  (n <= String.length a)%nat ->
  String.substring 0 n (a +:+ b) = String.substring 0 n a.
Proof.
  revert n. induction a as [|c a IH]; intros [|n] Hn; simpl in *;
    try reflexivity; try lia.
  - by destruct b.
  - rewrite IH by lia. reflexivity.
Qed.

Lemma year_string_length y : (4 <= String.length (year_string y))%nat.
Proof.
  unfold year_string. destruct (_ && _).
  - by rewrite pad_length.
  - rewrite string_app_length, pad_length. lia.
Qed.

Lemma date_string_same_day t t' : Day t = Day t' -> date_string t = date_string t'.
Proof.
  intros H.
  assert (Hy : YearFromTime t = YearFromTime t') by (unfold YearFromTime; by rewrite H).
  assert (Hl : InLeapYear t = InLeapYear t') by (unfold InLeapYear; by rewrite Hy).
  assert (Hw : DayWithinYear t = DayWithinYear t')
    by (unfold DayWithinYear; by rewrite H, Hy).
  assert (Hm : MonthFromTime t = MonthFromTime t')
    by (unfold MonthFromTime; by rewrite Hw, Hl).
  assert (Hd : DateFromTime t = DateFromTime t')
    by (unfold DateFromTime; by rewrite Hw, Hl, Hm).
  unfold date_string. by rewrite Hy, Hm, Hd.
Qed.

Lemma iso_slice_is_date_prefix t :
  slice_0 10 (toISOString t) = slice_0 10 (date_string t).
Proof.
  unfold slice_0, toISOString. apply substring_0_app_le.
  unfold date_string. rewrite !string_app_length, !pad_length.
  pose proof (year_string_length (YearFromTime t)). simpl. lia.
Qed.

(** ** Export, further *)

(** X23: the name of the exported file depends on the moment of the
    response through its UTC day only: two exports of one type answered
    on the same UTC day get the same name, at any time of that day. *)
Theorem export_name_same_day (exportType : jsval) (t t' : Z) :
  Day t = Day t' ->
  ExportData.download_name exportType t = ExportData.download_name exportType t'.
Proof.
  intros H. unfold ExportData.download_name.
  by rewrite !iso_slice_is_date_prefix, (date_string_same_day t t' H).
Qed.

(** An instance: the first and the last millisecond of 2024-01-02. *)
Lemma export_name_same_day_witness :
  Day 1704153600000 = Day 1704239999999
  /\ ExportData.download_name (VString "orders") 1704153600000
     = ExportData.download_name (VString "orders") 1704239999999.
Proof.
  assert (H : Day 1704153600000 = Day 1704239999999) by reflexivity.
  split; [exact H|]. apply (export_name_same_day _ _ _ H).
Defined.

Lemma download_name_day (exportType : jsval) (t t' : Z) :
  TimeFromYear 0 <= t < TimeFromYear 10000 ->
  TimeFromYear 0 <= t' < TimeFromYear 10000 ->
  ExportData.download_name exportType t = ExportData.download_name exportType t' ->
  Day t = Day t'.
Proof.
  intros Ht Ht' H. unfold ExportData.download_name in H.
  pose proof (YearFromTime_range t Ht) as Hy.
  pose proof (YearFromTime_range t' Ht') as Hy'.
  pose proof (month_and_date_range t) as [Hm Hd].
  pose proof (month_and_date_range t') as [Hm' Hd'].
  rewrite (iso_date_slice t Hy), (iso_date_slice t' Hy') in H.
  apply (inj (String.app "export_")) in H.
  apply (inj (String.app (ToString exportType))) in H.
  apply (inj (String.app "_")) in H.
  rewrite <- !string_app_assoc in H.
  apply string_app_inj_length in H as [H _];
    [|rewrite !string_app_length, !pad_length; reflexivity].
  rewrite !string_app_assoc in H.
  apply string_app_inj_length in H as [Hyear H]; [|by rewrite !pad_length].
  apply (inj (String.app "-")) in H.
  apply string_app_inj_length in H as [Hmonth H]; [|by rewrite !pad_length].
  apply (inj (String.app "-")) in H. rename H into Hdate.
  apply pad_inj in Hyear; [|simpl; lia..].
  apply pad_inj in Hmonth; [|simpl; lia..].
  apply pad_inj in Hdate; [|simpl; lia..].
  assert (Hleap : InLeapYear t = InLeapYear t') by (unfold InLeapYear; by rewrite Hyear).
  rewrite (day_of_calendar_date t), (day_of_calendar_date t').
  rewrite Hyear, Hleap, Hdate. replace (MonthFromTime t) with (MonthFromTime t') by lia.
  reflexivity.
Qed.

(** X24: within the years 0 to 9999 the name of the exported file tells
    the UTC day of the response: two exports of one type answered on
    different UTC days get different names. *)
Theorem export_name_tells_the_day (exportType : jsval) (t t' : Z) :
  TimeFromYear 0 <= t < TimeFromYear 10000 ->
  TimeFromYear 0 <= t' < TimeFromYear 10000 ->
  Day t <> Day t' ->
  ExportData.download_name exportType t <> ExportData.download_name exportType t'.
Proof.
  intros Ht Ht' Hday H. apply Hday. by apply (download_name_day exportType).
Qed.

(** An instance: responses on either side of midnight. *)
Lemma export_name_tells_the_day_witness :
  (TimeFromYear 0 <= before_midnight < TimeFromYear 10000)
  /\ (TimeFromYear 0 <= after_midnight < TimeFromYear 10000)
  /\ Day before_midnight <> Day after_midnight
  /\ ExportData.download_name (VString "orders") before_midnight
     <> ExportData.download_name (VString "orders") after_midnight.
Proof.
  assert (Ht : TimeFromYear 0 <= before_midnight < TimeFromYear 10000)
    by (vm_compute; split; [discriminate|reflexivity]).
  assert (Ht' : TimeFromYear 0 <= after_midnight < TimeFromYear 10000)
    by (vm_compute; split; [discriminate|reflexivity]).
  assert (Hday : Day before_midnight <> Day after_midnight)
    by (vm_compute; discriminate).
  split; [exact Ht|]. split; [exact Ht'|]. split; [exact Hday|].
  apply (export_name_tells_the_day _ _ _ Ht Ht' Hday).
Defined.
